(** * SecurityDashboard: the aggregation engine

    A shallow embedding of the data-processing part of the
    [SecurityDashboard] React component: the two date-range filters, the
    activity aggregator [processActivityData], the attendance aggregator
    [processAttendanceData] and the effect that re-runs them.

    Conventions of the embedding.
    - A JavaScript counter that only sees [++] is a [Z]: doubles are exact
      on integers up to 2^53, far above any array length.
    - A value of [parseInt] and a total of such values is a [Z] or NaN. It
      is the number of the code as long as it stays within 2^53 in
      magnitude; beyond, the code rounds (and [parseInt] may approximate a
      long digit string as the host sees fit). A statement that depends on
      such a value says where it is exact.
    - A quotient is an IEEE 754 binary64 value, computed with the reference
      operations of [SpecFloat]; [Math.round] is defined on those values.
    - Strings are sequences of bytes; white space and digits are the ASCII
      ones.
    - The fields of a parsed CSV row are strings or missing. The fields
      the code stores as they are, the user name and the post name of an
      activity row, are [option string], [None] for [undefined]. The other
      fields are tested for truthiness before any other use, compared with
      [===] against a non-empty literal, or parsed behind [|| '0']: for
      them a missing field and an empty one behave alike, and both are the
      empty string.
    - An object used as a dictionary keeps its own properties in creation
      order; [Object_values] applies the enumeration order of the language.
      A lookup of a key that is no own property finds what the object
      inherits from [Object.prototype]: for the twelve property names of
      the standard a built-in object, which is truthy. A write through such
      a value lands on that built-in and creates no own property; what is
      written there is not tracked. The engine reads none of it back, but
      for one path that is left out: after a row keyed [__proto__] with a
      reading above 50, a row keyed [locationAccuracy] finds that reading
      under its key.
    - Code that can raise returns a [completion].
    - The host's [Date] parsing and time zone are parameters of the
      development. *)

From Stdlib Require Import ZArith String Ascii List Bool Lia Permutation.
From Stdlib Require Import Floats.SpecFloat.
From stdpp Require Import base option list strings gmap.

Open Scope string_scope.
Open Scope list_scope.
Open Scope Z_scope.

(** ** Numbers *)

Definition number : Type := spec_float.

Definition of_Z (z : Z) : number := binary_normalize 53 1024 z 0 false.

Definition js_div : number -> number -> number := SFdiv 53 1024.

Definition js_mul : number -> number -> number := SFmul 53 1024.

Definition js_NaN : number := S754_nan.

(** [Math.round x]: the integer closest to [x], ties towards +infinity,
    that is floor (x + 1/2) computed exactly; a result of zero keeps the
    sign of [x]; NaN, the infinities and the zeros are returned unchanged. *)
Definition Math_round (x : number) : number :=
  match x with
  | S754_finite s m e =>
      if 0 <=? e then x
      else binary_normalize 53 1024
             ((2 * cond_Zopp s (Zpos m) + 2 ^ (- e)) / 2 ^ (1 - e)) 0 s
  | _ => x
  end.

(** A number that is an integer or NaN: a [parseInt] result and the
    running total of such results. The integer is the mathematical value;
    it is the double of the code within 2^53 in magnitude. *)
Definition int_or_NaN : Type := option Z.

(** The largest magnitude up to which every integer is a double, so that
    [+=] on non-negative integers is exact while the total stays within. *)
Definition max_exact : Z := 2 ^ 53.

(** [a + b]: NaN absorbs; on integers the mathematical sum. *)
Definition nan_add (a b : int_or_NaN) : int_or_NaN :=
  match a, b with
  | Some x, Some y => Some (x + y)
  | _, _ => None
  end.

(** ** Strings *)

Definition truthy (s : string) : bool := negb (String.eqb s "").

Definition is_digit (c : ascii) : bool :=
  let n := Z.of_nat (nat_of_ascii c) in (48 <=? n) && (n <=? 57).

Definition digit_value (c : ascii) : option Z :=
  let n := Z.of_nat (nat_of_ascii c) in
  if (48 <=? n) && (n <=? 57) then Some (n - 48)
  else if (97 <=? n) && (n <=? 122) then Some (n - 87)
  else if (65 <=? n) && (n <=? 90) then Some (n - 55)
  else None.

Definition radix_digit (radix : Z) (c : ascii) : option Z :=
  match digit_value c with
  | Some d => if d <? radix then Some d else None
  | None => None
  end.

(** The longest prefix of digits in the given radix, with its value:
    [None] when the prefix is empty. *)
Fixpoint digits_prefix (radix : Z) (acc : option Z) (s : string) : option Z :=
  match s with
  | EmptyString => acc
  | String c r =>
      match radix_digit radix c with
      | Some d => digits_prefix radix (Some (radix * default 0 acc + d)) r
      | None => acc
      end
  end.

Definition is_white_space (c : ascii) : bool :=
  let n := Z.of_nat (nat_of_ascii c) in
  ((9 <=? n) && (n <=? 13)) || (n =? 32).

Fixpoint trim_start (s : string) : string :=
  match s with
  | String c r => if is_white_space c then trim_start r else s
  | EmptyString => s
  end.

Definition read_sign (s : string) : Z * string :=
  match s with
  | String "-" r => (-1, r)
  | String "+" r => (1, r)
  | _ => (1, s)
  end.

Definition read_radix (s : string) : Z * string :=
  match s with
  | String "0" (String "x" r) => (16, r)
  | String "0" (String "X" r) => (16, r)
  | _ => (10, s)
  end.

(** [parseInt(s)] without a radix: leading white space, an optional sign,
    an optional [0x] prefix, then the longest run of digits; NaN ([None])
    when that run is empty. The result is the mathematical value of the
    run, which is the number the code gets within [max_exact]. *)
Definition parseInt (input : string) : int_or_NaN :=
  let '(sign, s) := read_sign (trim_start input) in
  let '(radix, s) := read_radix s in
  (fun n => sign * n) <$> digits_prefix radix None s.

(** [s.match(/\d+/)]: the first maximal run of decimal digits. *)
Fixpoint take_digits (s : string) : string :=
  match s with
  | String c r => if is_digit c then String c (take_digits r) else EmptyString
  | EmptyString => EmptyString
  end.

Fixpoint match_digits (s : string) : option string :=
  match s with
  | EmptyString => None
  | String c r =>
      if is_digit c then Some (String c (take_digits r)) else match_digits r
  end.

(** ** Completions *)

Inductive error : Type := TypeError.

Inductive completion (A : Type) : Type :=
| Normal (a : A)
| Throw (e : error).

Arguments Normal {A} a.
Arguments Throw {A} e.

#[global] Instance completion_ret : MRet completion := fun A a => Normal a.

#[global] Instance completion_bind : MBind completion :=
  fun A B f m => match m with Normal a => f a | Throw e => Throw e end.

(** [data.forEach(body)] over a loop state. *)
Definition forEach {A S : Type} (body : S -> A -> completion S)
    (data : list A) (st : S) : completion S :=
  fold_left (fun acc a => acc ≫= fun s => body s a) data (Normal st).

(** ** Objects used as dictionaries *)

Section JSObject.
Context {V : Type}.

Fixpoint obj_get (k : string) (o : list (string * V)) : option V :=
  match o with
  | [] => None
  | (k', v) :: o' => if String.eqb k k' then Some v else obj_get k o'
  end.

Fixpoint obj_set (k : string) (v : V) (o : list (string * V)) : list (string * V) :=
  match o with
  | [] => [(k, v)]
  | (k', v') :: o' =>
      if String.eqb k k' then (k, v) :: o' else (k', v') :: obj_set k v o'
  end.

(** A property key is an array index when it is the canonical decimal
    form of an integer below 2^32 - 1. *)
Definition array_index (k : string) : option Z :=
  match k with
  | EmptyString => None
  | String c r =>
      if forallb is_digit (list_ascii_of_string k)
         && (negb (Ascii.eqb c "0") || String.eqb r "")
      then match digits_prefix 10 None k with
           | Some n => if n <? 4294967295 then Some n else None
           | None => None
           end
      else None
  end.

Fixpoint insert_by_index (x : Z * V) (l : list (Z * V)) : list (Z * V) :=
  match l with
  | [] => [x]
  | y :: l' => if fst x <=? fst y then x :: l else y :: insert_by_index x l'
  end.

Definition sort_by_index (l : list (Z * V)) : list (Z * V) :=
  fold_right insert_by_index [] l.

Definition index_entries (o : list (string * V)) : list (Z * V) :=
  omap (fun kv => (fun i => (i, snd kv)) <$> array_index (fst kv)) o.

Definition named_entries (o : list (string * V)) : list (string * V) :=
  List.filter (fun kv => negb (bool_decide (is_Some (array_index (fst kv))))) o.

(** [Object.values(o)]: array-index keys in ascending order, then the other
    keys in creation order. *)
Definition Object_values (o : list (string * V)) : list V :=
  (snd <$> sort_by_index (index_entries o)) ++ (snd <$> named_entries o).

End JSObject.

(** ** Dates *)

(** A [Date] object is its time value in milliseconds since the epoch;
    [None] is the time value NaN of an invalid date. *)
Definition Date : Type := option Z.

Definition msPerHour : Z := 3600000.

Definition HourFromTime (t : Z) : Z := (t / msPerHour) mod 24.

(** [a < b] and [a > b] on dates compare the time values; a comparison
    with NaN is false. *)
Definition date_lt (a b : Date) : bool :=
  match a, b with
  | Some x, Some y => x <? y
  | _, _ => false
  end.

Definition date_gt (a b : Date) : bool := date_lt b a.

(** ** Records *)

Module ActivityRecord.
Record t : Type := mk {
  Service_Number : string;
  User_Name : option string;
  Date_Time : string;
  Activity : string;
  Post_Name : option string;
  Location_Accuracy : string;
  Time_Accuracy : string }.
End ActivityRecord.

Module AttendanceRecord.
Record t : Type := mk {
  Login_Date : string;
  Post_Name : string;
  Shift_Time : string;
  Full_Name : string;
  Service_Number : string;
  Late_Hours : string;
  Excess_Hours : string;
  No_of_Miss : string }.
End AttendanceRecord.

Inductive Status : Type := normal | warning.

Module GuardStats.
Record t : Type := mk {
  id : string;
  name : option string;
  post : option string;
  activities : Z;
  locationAccuracy : Z;
  locationIssues : Z;
  onTime : bool;
  missedScans : Z;
  lastActivity : string;
  status : Status }.

Definition incr_activities (g : t) : t :=
  mk (id g) (name g) (post g) (activities g + 1) (locationAccuracy g)
     (locationIssues g) (onTime g) (missedScans g) (lastActivity g) (status g).

Definition set_lastActivity (s : string) (g : t) : t :=
  mk (id g) (name g) (post g) (activities g) (locationAccuracy g)
     (locationIssues g) (onTime g) (missedScans g) s (status g).

Definition incr_locationIssues (g : t) : t :=
  mk (id g) (name g) (post g) (activities g) (locationAccuracy g)
     (locationIssues g + 1) (onTime g) (missedScans g) (lastActivity g) (status g).

Definition set_locationAccuracy (a : Z) (g : t) : t :=
  mk (id g) (name g) (post g) (activities g) a
     (locationIssues g) (onTime g) (missedScans g) (lastActivity g) (status g).

Definition set_status (s : Status) (g : t) : t :=
  mk (id g) (name g) (post g) (activities g) (locationAccuracy g)
     (locationIssues g) (onTime g) (missedScans g) (lastActivity g) s.
End GuardStats.

Module LocationStats.
Record t : Type := mk {
  name : string;
  totalScans : Z;
  accuracyIssues : Z;
  avgAccuracy : Z;
  coverageRate : number }.

Definition incr_totalScans (l : t) : t :=
  mk (name l) (totalScans l + 1) (accuracyIssues l) (avgAccuracy l) (coverageRate l).

Definition incr_accuracyIssues (l : t) : t :=
  mk (name l) (totalScans l) (accuracyIssues l + 1) (avgAccuracy l) (coverageRate l).

Definition set_coverageRate (c : number) (l : t) : t :=
  mk (name l) (totalScans l) (accuracyIssues l) (avgAccuracy l) c.
End LocationStats.

Module Metrics.
Record t : Type := mk {
  totalGuards : Z;
  onTimeRate : number;
  lateCheckIns : Z;
  earlyCheckouts : Z;
  locationErrors : Z;
  avgLocationAccuracy : number;
  totalShifts : Z;
  missedScans : int_or_NaN }.
End Metrics.

Module ActivityData.
Record t : Type := mk {
  hour : Z;
  count : Z;
  locationIssues : Z }.

Definition incr_count (b : t) : t := mk (hour b) (count b + 1) (locationIssues b).

Definition incr_locationIssues (b : t) : t :=
  mk (hour b) (count b) (locationIssues b + 1).
End ActivityData.

(** ** Component state

    The [useState] cells the engine reads and writes. *)
Record State : Type := mkState {
  metrics : Metrics.t;
  guardStats : list GuardStats.t;
  activityData : list ActivityData.t;
  locationStats : list LocationStats.t;
  startDate : option Date;
  endDate : option Date;
  activityDataRaw : list ActivityRecord.t;
  attendanceDataRaw : list AttendanceRecord.t }.

Definition initialMetrics : Metrics.t :=
  Metrics.mk 0 (S754_zero false) 0 0 0 (S754_zero false) 0 (Some 0).

Definition initialState : State :=
  mkState initialMetrics [] [] [] None None [] [].

Definition setActivityData (v : list ActivityData.t) (s : State) : State :=
  mkState (metrics s) (guardStats s) v (locationStats s)
          (startDate s) (endDate s) (activityDataRaw s) (attendanceDataRaw s).

Definition setGuardStats (v : list GuardStats.t) (s : State) : State :=
  mkState (metrics s) v (activityData s) (locationStats s)
          (startDate s) (endDate s) (activityDataRaw s) (attendanceDataRaw s).

Definition setLocationStats (v : list LocationStats.t) (s : State) : State :=
  mkState (metrics s) (guardStats s) (activityData s) v
          (startDate s) (endDate s) (activityDataRaw s) (attendanceDataRaw s).

Definition setMetrics (f : Metrics.t -> Metrics.t) (s : State) : State :=
  mkState (f (metrics s)) (guardStats s) (activityData s) (locationStats s)
          (startDate s) (endDate s) (activityDataRaw s) (attendanceDataRaw s).

Definition setStartDate (v : option Date) (s : State) : State :=
  mkState (metrics s) (guardStats s) (activityData s) (locationStats s)
          v (endDate s) (activityDataRaw s) (attendanceDataRaw s).

Definition setEndDate (v : option Date) (s : State) : State :=
  mkState (metrics s) (guardStats s) (activityData s) (locationStats s)
          (startDate s) v (activityDataRaw s) (attendanceDataRaw s).

Definition setActivityDataRaw (v : list ActivityRecord.t) (s : State) : State :=
  mkState (metrics s) (guardStats s) (activityData s) (locationStats s)
          (startDate s) (endDate s) v (attendanceDataRaw s).

Definition setAttendanceDataRaw (v : list AttendanceRecord.t) (s : State) : State :=
  mkState (metrics s) (guardStats s) (activityData s) (locationStats s)
          (startDate s) (endDate s) (activityDataRaw s) v.

Definition to_number (n : int_or_NaN) : number :=
  match n with
  | Some z => of_Z z
  | None => js_NaN
  end.

(** ** The loop variables of the two aggregators *)

Record ActivityLoop : Type := mkActivityLoop {
  hourlyData : list ActivityData.t;
  uniqueGuards : gset string;
  totalLocationAccuracy : int_or_NaN;
  locationReadings : Z;
  locationIssues : Z;
  guardMetrics : list (string * GuardStats.t) }.

Record AttendanceLoop : Type := mkAttendanceLoop {
  locationCoverage : list (string * LocationStats.t);
  totalShifts : Z;
  onTime : Z;
  late : Z;
  missedScans : int_or_NaN }.

(** [Array.from({ length: 24 }, (_, hour) => ({ hour, count: 0, locationIssues: 0 }))] *)
Definition initialHourlyData : list ActivityData.t :=
  (fun h => ActivityData.mk (Z.of_nat h) 0 0) <$> seq 0 24.

Definition initialActivityLoop : ActivityLoop :=
  mkActivityLoop initialHourlyData ∅ (Some 0) 0 0 [].

Definition initialAttendanceLoop : AttendanceLoop :=
  mkAttendanceLoop [] 0 0 0 (Some 0).

(** [arr[hour].field++]: reading a property of [arr[hour]] raises a
    [TypeError] when [hour] is NaN or no index of the array. *)
Definition bucket_update (f : ActivityData.t -> ActivityData.t)
    (hour : option Z) (arr : list ActivityData.t) : completion (list ActivityData.t) :=
  match hour with
  | Some h =>
      if 0 <=? h then
        match arr !! Z.to_nat h with
        | Some b => Normal (<[Z.to_nat h := f b]> arr)
        | None => Throw TypeError
        end
      else Throw TypeError
  | None => Throw TypeError
  end.

(** The property names every object inherits from [Object.prototype]. The
    value found under each is a function, under [__proto__] the prototype
    itself: an extensible object, hence truthy and writable. *)
Definition Object_prototype_properties : list string :=
  [ "constructor"; "__defineGetter__"; "__defineSetter__"; "hasOwnProperty";
    "__lookupGetter__"; "__lookupSetter__"; "isPrototypeOf";
    "propertyIsEnumerable"; "toString"; "valueOf"; "__proto__";
    "toLocaleString" ].

Definition inherited (key : string) : bool :=
  existsb (String.eqb key) Object_prototype_properties.

(** [obj[key].field = ...]: on an own property the stored value changes;
    on an inherited one the write lands on the built-in object and the
    dictionary stays as it is; it raises when [obj[key]] is undefined. *)
Definition entry_update {V : Type} (f : V -> V) (key : string)
    (o : list (string * V)) : completion (list (string * V)) :=
  match obj_get key o with
  | Some v => Normal (obj_set key (f v) o)
  | None => if inherited key then Normal o else Throw TypeError
  end.

(** [if (!obj[key]) obj[key] = fresh]: the stored values are objects, hence
    truthy, and so is what is found under an inherited name: nothing is
    created for such a key. *)
Definition entry_ensure {V : Type} (key : string) (fresh : V)
    (o : list (string * V)) : list (string * V) :=
  match obj_get key o with
  | Some _ => o
  | None => if inherited key then o else obj_set key fresh o
  end.

Section Engine.

(** The host: [Date_parse s] is the time value of [new Date(s)], [None]
    for an invalid date; [LocalTZA t] is the offset of local time at [t]. *)
Variable Date_parse : string -> option Z.
Variable LocalTZA : Z -> Z.

Definition new_Date (s : string) : Date := Date_parse s.

Definition getHours (d : Date) : option Z :=
  (fun t => HourFromTime (t + LocalTZA t)) <$> d.

(** *** processActivityData *)

Definition newGuard (activity : ActivityRecord.t) : GuardStats.t :=
  GuardStats.mk
    (ActivityRecord.Service_Number activity)
    (ActivityRecord.User_Name activity)
    (ActivityRecord.Post_Name activity)
    0 0 0
    (String.eqb (ActivityRecord.Time_Accuracy activity) "On Time")
    0
    (ActivityRecord.Date_Time activity)
    normal.

(** [hourlyData[hour].count++] *)
Definition countHour (hour : option Z) (st : ActivityLoop) : completion ActivityLoop :=
  hd ← bucket_update ActivityData.incr_count hour (hourlyData st);
  Normal (mkActivityLoop hd (uniqueGuards st) (totalLocationAccuracy st)
            (locationReadings st) (locationIssues st) (guardMetrics st)).

Definition touchGuard (activity : ActivityRecord.t) (guard : GuardStats.t) : GuardStats.t :=
  let guard := GuardStats.incr_activities guard in
  if date_gt (new_Date (ActivityRecord.Date_Time activity))
             (new_Date (GuardStats.lastActivity guard))
  then GuardStats.set_lastActivity (ActivityRecord.Date_Time activity) guard
  else guard.

(** "Track unique guards and their metrics" *)
Definition trackGuard (activity : ActivityRecord.t) (st : ActivityLoop) :
    completion ActivityLoop :=
  let sn := ActivityRecord.Service_Number activity in
  if truthy sn then
    let ug := {[ sn ]} ∪ uniqueGuards st in
    let gm := entry_ensure sn (newGuard activity) (guardMetrics st) in
    gm ← entry_update (touchGuard activity) sn gm;
    Normal (mkActivityLoop (hourlyData st) ug (totalLocationAccuracy st)
              (locationReadings st) (locationIssues st) gm)
  else Normal st.

Definition flagGuard (accuracy : Z) (guard : GuardStats.t) : GuardStats.t :=
  GuardStats.set_locationAccuracy accuracy (GuardStats.incr_locationIssues guard).

(** "Process location accuracy". When [parseInt] yields NaN the sum becomes
    NaN, the reading is counted and [NaN > 50] is false. *)
Definition trackAccuracy (activity : ActivityRecord.t) (hour : option Z)
    (st : ActivityLoop) : completion ActivityLoop :=
  if truthy (ActivityRecord.Location_Accuracy activity) then
    match match_digits (ActivityRecord.Location_Accuracy activity) with
    | Some accuracyMatch =>
        let total := nan_add (totalLocationAccuracy st) (parseInt accuracyMatch) in
        let readings := locationReadings st + 1 in
        match parseInt accuracyMatch with
        | Some accuracy =>
            if 50 <? accuracy then
              hd ← bucket_update ActivityData.incr_locationIssues hour (hourlyData st);
              gm ← (if truthy (ActivityRecord.Service_Number activity)
                    then entry_update (flagGuard accuracy)
                           (ActivityRecord.Service_Number activity) (guardMetrics st)
                    else Normal (guardMetrics st));
              Normal (mkActivityLoop hd (uniqueGuards st) total readings
                        (locationIssues st + 1) gm)
            else
              Normal (mkActivityLoop (hourlyData st) (uniqueGuards st) total readings
                        (locationIssues st) (guardMetrics st))
        | None =>
            Normal (mkActivityLoop (hourlyData st) (uniqueGuards st) total readings
                      (locationIssues st) (guardMetrics st))
        end
    | None => Normal st
    end
  else Normal st.

(** The callback of [data.forEach] in [processActivityData]. *)
Definition activityBody (st : ActivityLoop) (activity : ActivityRecord.t) :
    completion ActivityLoop :=
  if negb (truthy (ActivityRecord.Date_Time activity)) then Normal st
  else
    let date := new_Date (ActivityRecord.Date_Time activity) in
    let hour := getHours date in
    st ← countHour hour st;
    st ← trackGuard activity st;
    trackAccuracy activity hour st.

Definition finalStatus (guard : GuardStats.t) : GuardStats.t :=
  GuardStats.set_status
    (if (0 <? GuardStats.locationIssues guard) || negb (GuardStats.onTime guard)
     then warning else normal)
    guard.

Definition activityMetrics (loop : ActivityLoop) (prev : Metrics.t) : Metrics.t :=
  Metrics.mk
    (Z.of_nat (size (uniqueGuards loop)))
    (Metrics.onTimeRate prev)
    (Metrics.lateCheckIns prev)
    (Metrics.earlyCheckouts prev)
    (locationIssues loop)
    (if locationReadings loop =? 0 then S754_zero false
     else Math_round (js_div (to_number (totalLocationAccuracy loop))
                             (of_Z (locationReadings loop))))
    (Metrics.totalShifts prev)
    (Metrics.missedScans prev).

Definition processActivityData (data : list ActivityRecord.t) (s : State) :
    completion State :=
  loop ← forEach activityBody data initialActivityLoop;
  let s := setActivityData (hourlyData loop) s in
  let s := setGuardStats (finalStatus <$> Object_values (guardMetrics loop)) s in
  Normal (setMetrics (activityMetrics loop) s).

(** *** processAttendanceData *)

Definition newLocation (location : string) : LocationStats.t :=
  LocationStats.mk location 0 0 0 (S754_zero false).

Definition attendanceBody (st : AttendanceLoop) (record : AttendanceRecord.t) :
    completion AttendanceLoop :=
  if negb (truthy (AttendanceRecord.Post_Name record)) then Normal st
  else
    let totalShifts := totalShifts st + 1 in
    let isOnTime := String.eqb (AttendanceRecord.Late_Hours record) "On-time" in
    let onTime := if isOnTime then onTime st + 1 else onTime st in
    let late := if isOnTime then late st else late st + 1 in
    let miss := AttendanceRecord.No_of_Miss record in
    let missedScans :=
      nan_add (missedScans st) (parseInt (if truthy miss then miss else "0")) in
    let location := AttendanceRecord.Post_Name record in
    let lc := entry_ensure location (newLocation location) (locationCoverage st) in
    lc ← entry_update LocationStats.incr_totalScans location lc;
    lc ← (if negb isOnTime
          then entry_update LocationStats.incr_accuracyIssues location lc
          else Normal lc);
    Normal (mkAttendanceLoop lc totalShifts onTime late missedScans).

(** [Math.round(((totalScans - accuracyIssues) / totalScans) * 100)] *)
Definition coverage (totalScans accuracyIssues : Z) : number :=
  Math_round (js_mul (js_div (of_Z (totalScans - accuracyIssues)) (of_Z totalScans))
                     (of_Z 100)).

Definition withCoverage (location : LocationStats.t) : LocationStats.t :=
  LocationStats.set_coverageRate
    (coverage (LocationStats.totalScans location) (LocationStats.accuracyIssues location))
    location.

Definition attendanceMetrics (loop : AttendanceLoop) (prev : Metrics.t) : Metrics.t :=
  Metrics.mk
    (Metrics.totalGuards prev)
    (Math_round (js_mul (js_div (of_Z (onTime loop)) (of_Z (totalShifts loop))) (of_Z 100)))
    (late loop)
    (late loop)
    (Metrics.locationErrors prev)
    (Metrics.avgLocationAccuracy prev)
    (totalShifts loop)
    (missedScans loop).

Definition processAttendanceData (data : list AttendanceRecord.t) (s : State) :
    completion State :=
  loop ← forEach attendanceBody data initialAttendanceLoop;
  let s := setLocationStats (withCoverage <$> Object_values (locationCoverage loop)) s in
  Normal (setMetrics (attendanceMetrics loop) s).

(** *** The date-range filters and the effect *)

Definition inRange (field : string) (startDate endDate : option Date) : bool :=
  if negb (truthy field) then false
  else
    let d := new_Date field in
    if match startDate with Some b => date_lt d b | None => false end then false
    else if match endDate with Some b => date_gt d b | None => false end then false
    else true.

Definition filteredActivityData (s : State) : list ActivityRecord.t :=
  List.filter (fun activity =>
    inRange (ActivityRecord.Date_Time activity) (startDate s) (endDate s))
    (activityDataRaw s).

Definition filteredAttendanceData (s : State) : list AttendanceRecord.t :=
  List.filter (fun record =>
    inRange (AttendanceRecord.Login_Date record) (startDate s) (endDate s))
    (attendanceDataRaw s).

(** The effect with dependencies
    [activityDataRaw, attendanceDataRaw, startDate, endDate]. *)
Definition rangeEffect (s : State) : completion State :=
  if (length (activityDataRaw s) =? 0)%nat || (length (attendanceDataRaw s) =? 0)%nat
  then Normal s
  else
    s' ← processActivityData (filteredActivityData s) s;
    processAttendanceData (filteredAttendanceData s) s'.

(** A change of one of the four dependencies. *)
Inductive Change : Type :=
| ChangeActivityDataRaw (v : list ActivityRecord.t)
| ChangeAttendanceDataRaw (v : list AttendanceRecord.t)
| ChangeStartDate (v : option Date)
| ChangeEndDate (v : option Date).

Definition applyChange (c : Change) (s : State) : State :=
  match c with
  | ChangeActivityDataRaw v => setActivityDataRaw v s
  | ChangeAttendanceDataRaw v => setAttendanceDataRaw v s
  | ChangeStartDate v => setStartDate v s
  | ChangeEndDate v => setEndDate v s
  end.

(** The state after a change and the run of the effect it triggers. *)
Definition onChange (c : Change) (s : State) : completion State :=
  rangeEffect (applyChange c s).

End Engine.

(** ** A host

    A host whose local time is UTC and whose [Date] parser accepts the
    date-time string format of the language in the forms [YYYY-MM-DD],
    [YYYY-MM-DDTHH:mm:ss] and [YYYY-MM-DDTHH:mm:ssZ]. What a host does
    with other strings is its own choice; this one answers NaN. It is the
    host at which the general statements below are run on examples. *)

Fixpoint read_digits (n : nat) (acc : Z) (s : string) : option (Z * string) :=
  match n with
  | O => Some (acc, s)
  | S n' =>
      match s with
      | String c r =>
          if is_digit c
          then read_digits n' (10 * acc + (Z.of_nat (nat_of_ascii c) - 48)) r
          else None
      | EmptyString => None
      end
  end.

Definition read_char (c : ascii) (s : string) : option string :=
  match s with
  | String c' r => if Ascii.eqb c c' then Some r else None
  | EmptyString => None
  end.

Definition isLeapYear (y : Z) : bool :=
  ((y mod 4 =? 0) && negb (y mod 100 =? 0)) || (y mod 400 =? 0).

Definition daysInMonth (y m : Z) : Z :=
  if m =? 2 then (if isLeapYear y then 29 else 28)
  else if (m =? 4) || (m =? 6) || (m =? 9) || (m =? 11) then 30
  else 31.

(** Days from 1970-01-01 to the given civil date. *)
Definition daysFromCivil (y m d : Z) : Z :=
  let y' := if m <=? 2 then y - 1 else y in
  let era := y' / 400 in
  let yoe := y' - era * 400 in
  let doy := (153 * (if 2 <? m then m - 3 else m + 9) + 2) / 5 + d - 1 in
  let doe := yoe * 365 + yoe / 4 - yoe / 100 + doy in
  era * 146097 + doe - 719468.

Definition makeTime (y m d hh mm ss : Z) : option Z :=
  if (1 <=? m) && (m <=? 12) && (1 <=? d) && (d <=? daysInMonth y m)
     && (hh <=? 23) && (mm <=? 59) && (ss <=? 59)
  then Some (daysFromCivil y m d * 86400000 + hh * 3600000 + mm * 60000 + ss * 1000)
  else None.

Definition read_time (s : string) : option (Z * Z * Z * string) :=
  s ← read_char "T" s;
  '(hh, s) ← read_digits 2 0 s;
  s ← read_char ":" s;
  '(mm, s) ← read_digits 2 0 s;
  s ← read_char ":" s;
  '(ss, s) ← read_digits 2 0 s;
  Some (hh, mm, ss, s).

Definition iso_Date_parse (s : string) : option Z :=
  '(y, s) ← read_digits 4 0 s;
  s ← read_char "-" s;
  '(m, s) ← read_digits 2 0 s;
  s ← read_char "-" s;
  '(d, s) ← read_digits 2 0 s;
  match s with
  | EmptyString => makeTime y m d 0 0 0
  | _ =>
      '(hh, mm, ss, s) ← read_time s;
      if String.eqb s "" || String.eqb s "Z" then makeTime y m d hh mm ss else None
  end.

Definition utc_LocalTZA (t : Z) : Z := 0.


(** ** Vocabulary of the statements *)

Definition sumZ (l : list Z) : Z := fold_right Z.add 0 l.

(** The four published cells. *)
Definition published (s : State) :
    Metrics.t * list ActivityData.t * list GuardStats.t * list LocationStats.t :=
  (metrics s, activityData s, guardStats s, locationStats s).

Definition completion_map {A B : Type} (f : A -> B) (m : completion A) : completion B :=
  match m with
  | Normal a => Normal (f a)
  | Throw e => Throw e
  end.

(** The reading of a row: the value of the first digit run of its
    accuracy text. *)
Definition accuracyOf (a : ActivityRecord.t) : option Z :=
  match_digits (ActivityRecord.Location_Accuracy a) ≫= parseInt.

(** The rows the activity loop does not skip. *)
Definition timestamped (data : list ActivityRecord.t) : list ActivityRecord.t :=
  List.filter (fun a => truthy (ActivityRecord.Date_Time a)) data.

Definition readings (data : list ActivityRecord.t) : list Z :=
  omap accuracyOf (timestamped data).

(** The contributing rows of a service number. *)
Definition rowsOf (k : string) (data : list ActivityRecord.t) : list ActivityRecord.t :=
  List.filter (fun a => String.eqb (ActivityRecord.Service_Number a) k) (timestamped data).

Definition isIssue (a : ActivityRecord.t) : bool :=
  match accuracyOf a with
  | Some v => 50 <? v
  | None => false
  end.

(** The attendance rows the loop does not skip, and those of a post. *)
Definition posted (data : list AttendanceRecord.t) : list AttendanceRecord.t :=
  List.filter (fun r => truthy (AttendanceRecord.Post_Name r)) data.

Definition missOf (r : AttendanceRecord.t) : int_or_NaN :=
  parseInt (if truthy (AttendanceRecord.No_of_Miss r)
            then AttendanceRecord.No_of_Miss r else "0").

Section Vocabulary.

Variable Date_parse : string -> option Z.
Variable LocalTZA : Z -> Z.

Definition hourOf (a : ActivityRecord.t) : option Z :=
  getHours LocalTZA (new_Date Date_parse (ActivityRecord.Date_Time a)).

Definition parseable (s : string) : bool := bool_decide (is_Some (Date_parse s)).

(** Every row the loop does not skip has a timestamp the host can parse. *)
Definition timestamps_ok (data : list ActivityRecord.t) : bool :=
  forallb (fun a => negb (truthy (ActivityRecord.Date_Time a))
                    || parseable (ActivityRecord.Date_Time a)) data.

Definition rowsAtHour (h : Z) (data : list ActivityRecord.t) : list ActivityRecord.t :=
  List.filter (fun a => bool_decide (hourOf a = Some h)) (timestamped data).

(** The first contributing row of a service number. *)
Definition firstSeen (k : string) (data : list ActivityRecord.t) : option ActivityRecord.t :=
  head (rowsOf k data).


(** A time value lies within the bounds, both ends included; an absent
    bound, or one that is an invalid date, does not constrain. *)
Definition within (t : Z) (startDate endDate : option Date) : bool :=
  match startDate with Some (Some lo) => lo <=? t | _ => true end
  && match endDate with Some (Some hi) => t <=? hi | _ => true end.

(** The filter as the specification words it: the records whose date
    field parses and lies within the bounds. *)
Definition claimed_filter {A : Type} (field : A -> string)
    (startDate endDate : option Date) (data : list A) : list A :=
  List.filter (fun r => match Date_parse (field r) with
                        | Some t => within t startDate endDate
                        | None => false
                        end) data.

(** What the filter keeps: a non-empty date field that is not shown to lie
    outside the bounds. *)
Definition kept (field : string) (startDate endDate : option Date) : bool :=
  truthy field
  && match Date_parse field with
     | Some t => within t startDate endDate
     | None => true
     end.

(** Re-derivation as the specification words it: filter the raw sets with
    the bounds, run both aggregators, publish. *)
Definition rederive (activityRaw : list ActivityRecord.t)
    (attendanceRaw : list AttendanceRecord.t) (startDate endDate : option Date) :
    completion (Metrics.t * list ActivityData.t * list GuardStats.t * list LocationStats.t) :=
  let s0 := mkState initialMetrics [] [] [] startDate endDate activityRaw attendanceRaw in
  s1 ← processActivityData Date_parse LocalTZA (filteredActivityData Date_parse s0) s0;
  s2 ← processAttendanceData (filteredAttendanceData Date_parse s0) s1;
  Normal (published s2).

End Vocabulary.

(** Coverage as the specification words it: round(100 * (total - issues) / total)
    in exact arithmetic, ties upwards. *)
Definition claimed_coverageRate (totalScans accuracyIssues : Z) : Z :=
  (200 * (totalScans - accuracyIssues) + totalScans) / (2 * totalScans).

(** ** Example inputs *)

Definition activityRow (sn dateTime accuracy timeAccuracy : string) : ActivityRecord.t :=
  ActivityRecord.mk sn (Some "A. Guard") dateTime "Patrol scan" (Some "Gate-1")
    accuracy timeAccuracy.

Definition attendanceRow (loginDate post lateHours miss : string) : AttendanceRecord.t :=
  AttendanceRecord.mk loginDate post "08:00-16:00" "A. Guard" "101" lateHours "0" miss.

Definition ex_activity : list ActivityRecord.t :=
  [ activityRow "101" "2024-01-15T14:30:00Z" "10m" "On Time";
    activityRow "" "2024-01-15T15:10:00Z" "75m" "Late";
    activityRow "101" "2024-01-15T16:45:00Z" "" "Late" ].

Definition ex_badTimestamp : list ActivityRecord.t :=
  [ activityRow "101" "garbage" "75m" "On Time" ].

Definition ex_attendance : list AttendanceRecord.t :=
  [ attendanceRow "2024-01-15" "Gate-1" "On-time" "1";
    attendanceRow "2024-01-15" "Gate-1" "01:10" "" ].

Definition ex_badMiss : list AttendanceRecord.t :=
  [ attendanceRow "2024-01-15" "Gate-1" "On-time" "abc" ].

(** Forty shifts at one post, seventeen of them late. *)
Definition ex_fortyShifts : list AttendanceRecord.t :=
  replicate 17 (attendanceRow "2024-01-15" "Gate-1" "00:20" "0")
  ++ replicate 23 (attendanceRow "2024-01-15" "Gate-1" "On-time" "0").

(** ** The effect of one row, field by field

    What one pass through the body of each loop does to the loop
    variables, written as plain functions; the bodies are proved equal to
    them below. *)

(** A dictionary after [if (!obj[key]) obj[key] = fresh] and the updates of
    [obj[key]] that follow: [step] gives the new value from the old one,
    [None] for a fresh entry; under an inherited name there is no own
    property to change. *)
Definition entryStep {V : Type} (key : string) (step : option V -> V)
    (o : list (string * V)) : list (string * V) :=
  match obj_get key o with
  | Some v => obj_set key (step (Some v)) o
  | None => if inherited key then o else obj_set key (step None) o
  end.

Definition bucketStep (a : ActivityRecord.t) (b : ActivityData.t) : ActivityData.t :=
  let b := ActivityData.incr_count b in
  if isIssue a then ActivityData.incr_locationIssues b else b.

Section Steps.

Variable Date_parse : string -> option Z.

Definition guardStep (a : ActivityRecord.t) (g : option GuardStats.t) : GuardStats.t :=
  let g := touchGuard Date_parse a (default (newGuard a) g) in
  if isIssue a then flagGuard (default 0 (accuracyOf a)) g else g.

Definition activityStep (h : Z) (a : ActivityRecord.t) (st : ActivityLoop) : ActivityLoop :=
  let sn := ActivityRecord.Service_Number a in
  mkActivityLoop
    (alter (bucketStep a) (Z.to_nat h) (hourlyData st))
    (if truthy sn then {[ sn ]} ∪ uniqueGuards st else uniqueGuards st)
    (match accuracyOf a with
     | Some v => nan_add (totalLocationAccuracy st) (Some v)
     | None => totalLocationAccuracy st
     end)
    (locationReadings st + (match accuracyOf a with Some _ => 1 | None => 0 end))
    (locationIssues st + (if isIssue a then 1 else 0))
    (if truthy sn then entryStep sn (guardStep a) (guardMetrics st)
     else guardMetrics st).

End Steps.

Definition locationStep (r : AttendanceRecord.t) (l : option LocationStats.t) : LocationStats.t :=
  let l := LocationStats.incr_totalScans
             (default (newLocation (AttendanceRecord.Post_Name r)) l) in
  if String.eqb (AttendanceRecord.Late_Hours r) "On-time" then l
  else LocationStats.incr_accuracyIssues l.

Definition attendanceStep (r : AttendanceRecord.t) (st : AttendanceLoop) : AttendanceLoop :=
  let isOnTime := String.eqb (AttendanceRecord.Late_Hours r) "On-time" in
  let location := AttendanceRecord.Post_Name r in
  mkAttendanceLoop
    (entryStep location (locationStep r) (locationCoverage st))
    (totalShifts st + 1)
    (if isOnTime then onTime st + 1 else onTime st)
    (if isOnTime then late st else late st + 1)
    (nan_add (missedScans st) (missOf r)).

(** ** Loop invariants *)

Section Invariants.

Variable Date_parse : string -> option Z.
Variable LocalTZA : Z -> Z.

(** What the loop variables of [processActivityData] hold once the rows
    [data] have been consumed. *)
Record ActivityInv (data : list ActivityRecord.t) (st : ActivityLoop) : Prop := {
  inv_length : length (hourlyData st) = 24%nat;
  inv_bucket : forall (h : nat) (b : ActivityData.t),
    hourlyData st !! h = Some b ->
    ActivityData.hour b = Z.of_nat h
    /\ ActivityData.count b
       = Z.of_nat (length (rowsAtHour Date_parse LocalTZA (Z.of_nat h) data))
    /\ ActivityData.locationIssues b
       = Z.of_nat (length (List.filter isIssue
                             (rowsAtHour Date_parse LocalTZA (Z.of_nat h) data)));
  inv_sum :
    sumZ (ActivityData.count <$> hourlyData st) = Z.of_nat (length (timestamped data));
  inv_nodup : NoDup (guardMetrics st).*1;
  inv_keys : forall k : string,
    k ∈ (guardMetrics st).*1 <-> k <> "" /\ inherited k = false /\ rowsOf k data <> [];
  inv_unique : forall k : string,
    k ∈ uniqueGuards st <-> k <> "" /\ rowsOf k data <> [];
  inv_guard : forall (k : string) (g : GuardStats.t),
    obj_get k (guardMetrics st) = Some g ->
    GuardStats.id g = k
    /\ GuardStats.activities g = Z.of_nat (length (rowsOf k data))
    /\ GuardStats.locationIssues g = Z.of_nat (length (List.filter isIssue (rowsOf k data)))
    /\ exists a, firstSeen k data = Some a
         /\ GuardStats.onTime g = String.eqb (ActivityRecord.Time_Accuracy a) "On Time";
  inv_total : totalLocationAccuracy st = Some (sumZ (readings data));
  inv_readings : locationReadings st = Z.of_nat (length (readings data));
  inv_issues :
    locationIssues st = Z.of_nat (length (List.filter (fun v => 50 <? v) (readings data))) }.

End Invariants.

Definition rowsAtPost (k : string) (data : list AttendanceRecord.t) : list AttendanceRecord.t :=
  List.filter (fun r => String.eqb (AttendanceRecord.Post_Name r) k) (posted data).

Definition isLate (r : AttendanceRecord.t) : bool :=
  negb (String.eqb (AttendanceRecord.Late_Hours r) "On-time").

(** The sum of the miss counts, NaN as soon as one of them is. *)
Definition missTotal (data : list AttendanceRecord.t) : int_or_NaN :=
  fold_left (fun acc r => nan_add acc (missOf r)) (posted data) (Some 0).

(** What the loop variables of [processAttendanceData] hold once the rows
    [data] have been consumed. *)
Record AttendanceInv (data : list AttendanceRecord.t) (st : AttendanceLoop) : Prop := {
  att_nodup : NoDup (locationCoverage st).*1;
  att_keys : forall k : string,
    k ∈ (locationCoverage st).*1
    <-> k <> "" /\ inherited k = false /\ rowsAtPost k data <> [];
  att_location : forall (k : string) (l : LocationStats.t),
    obj_get k (locationCoverage st) = Some l ->
    LocationStats.name l = k
    /\ LocationStats.totalScans l = Z.of_nat (length (rowsAtPost k data))
    /\ LocationStats.accuracyIssues l
       = Z.of_nat (length (List.filter isLate (rowsAtPost k data)));
  att_total : totalShifts st = Z.of_nat (length (posted data));
  att_onTime :
    onTime st = Z.of_nat (length (List.filter (fun r => negb (isLate r)) (posted data)));
  att_late : late st = Z.of_nat (length (List.filter isLate (posted data)));
  att_missed : missedScans st = missTotal data }.

(** round(sum / count) over a list of readings, 0 for the empty list. *)
Definition averageOf (l : list Z) : number :=
  match l with
  | [] => S754_zero false
  | _ :: _ => Math_round (js_div (of_Z (sumZ l)) (of_Z (Z.of_nat (length l))))
  end.

(** The loop variables of [processActivityData] published into the state. *)
Definition publishActivity (loop : ActivityLoop) (s : State) : State :=
  setMetrics (activityMetrics loop)
    (setGuardStats (finalStatus <$> Object_values (guardMetrics loop))
       (setActivityData (hourlyData loop) s)).

Definition publishAttendance (loop : AttendanceLoop) (s : State) : State :=
  setMetrics (attendanceMetrics loop)
    (setLocationStats (withCoverage <$> Object_values (locationCoverage loop)) s).

Definition ex_emptyServiceNumber : ActivityRecord.t :=
  activityRow "" "2024-01-15T15:20:00Z" "60m" "On Time".

Definition ex_bounds : option Date * option Date :=
  (Some (Some 1705276800000), Some (Some 1705363200000)).

Definition ex_loaded : State :=
  mkState initialMetrics [] [] [] (fst ex_bounds) (snd ex_bounds) ex_badTimestamp ex_attendance.

(** Two rows of a guard whose service number is the name of a property
    every object inherits, and one row of guard 101. *)
Definition ex_inheritedKey : list ActivityRecord.t :=
  [ activityRow "constructor" "2024-01-15T14:30:00Z" "10m" "On Time";
    activityRow "101" "2024-01-15T15:00:00Z" "20m" "On Time";
    activityRow "constructor" "2024-01-15T16:45:00Z" "75m" "Late" ].

(** ** The rest of the component: drill-down, search, date picker, loading *)

(** [a === b] on numbers: NaN is equal to nothing. *)
Definition strict_eq (a b : int_or_NaN) : bool :=
  match a, b with
  | Some x, Some y => x =? y
  | _, _ => false
  end.

(** [s.startsWith(prefix)] and [s.includes(search)]. *)
Fixpoint starts_with (prefix s : string) : bool :=
  match prefix, s with
  | EmptyString, _ => true
  | String c p, String d r => Ascii.eqb c d && starts_with p r
  | String _ _, EmptyString => false
  end.

Fixpoint includes (s search : string) : bool :=
  starts_with search s
  || match s with
     | String _ r => includes r search
     | EmptyString => false
     end.

(** [array.filter(predicate)] with a predicate that can raise: the
    elements are tried in order and the first exception ends the call. *)
Fixpoint filter_c {A : Type} (predicate : A -> completion bool) (l : list A) :
    completion (list A) :=
  match l with
  | [] => Normal []
  | x :: rest =>
      keep ← predicate x;
      rest ← filter_c predicate rest;
      Normal (if keep : bool then x :: rest else rest)
  end.

Section DrillDown.

Variable Date_parse : string -> option Z.
Variable LocalTZA : Z -> Z.

(** "Show detailed activities for the selected hour": read from the raw
    records. A selected hour that is not an integer equals no hour, as NaN
    does. *)
Definition activitiesInHour (selectedHour : int_or_NaN) (s : State) : list ActivityRecord.t :=
  List.filter (fun activity =>
    let date := new_Date Date_parse (ActivityRecord.Date_Time activity) in
    strict_eq (getHours LocalTZA date) selectedHour)
    (activityDataRaw s).

(** "Show detailed stats for the selected location": a missing post name
    is equal to no location. *)
Definition locationActivities (selectedLocation : string) (s : State) : list ActivityRecord.t :=
  List.filter (fun activity =>
    match ActivityRecord.Post_Name activity with
    | Some post => String.eqb post selectedLocation
    | None => false
    end)
    (activityDataRaw s).

(** What [renderDrillDownContent] tabulates: the hour comes first. *)
Inductive DrillDownTable : Type :=
| HourTable (hour : int_or_NaN) (rows : list ActivityRecord.t)
| LocationTable (location : string) (rows : list ActivityRecord.t)
| NoTable.

Definition renderDrillDownContent (selectedHour : option int_or_NaN)
    (selectedLocation : option string) (s : State) : DrillDownTable :=
  match selectedHour with
  | Some hour => HourTable hour (activitiesInHour hour s)
  | None =>
      match selectedLocation with
      | Some location => LocationTable location (locationActivities location s)
      | None => NoTable
      end
  end.


End DrillDown.

Section Search.

(** [String.prototype.toLowerCase] of the host. *)
Variable toLowerCase : string -> string.

(** [field.toLowerCase().includes(searchTerm.toLowerCase())]: calling the
    method on [undefined] raises. *)
Definition fieldMatches (searchTerm : string) (field : option string) : completion bool :=
  match field with
  | Some text => Normal (includes (toLowerCase text) (toLowerCase searchTerm))
  | None => Throw TypeError
  end.

(** The guards tab: the name is tried first, and the post only when the
    name does not match. *)
Definition guardMatches (searchTerm : string) (guard : GuardStats.t) : completion bool :=
  byName ← fieldMatches searchTerm (GuardStats.name guard);
  if byName : bool then Normal true
  else fieldMatches searchTerm (GuardStats.post guard).

Definition visibleGuards (searchTerm : string) (s : State) : completion (list GuardStats.t) :=
  filter_c (guardMatches searchTerm) (guardStats s).


(** The locations tab: the name of a location is the non-empty post name
    it was created for. *)
Definition locationMatches (searchTerm : string) (location : LocationStats.t) : bool :=
  includes (toLowerCase (LocationStats.name location)) (toLowerCase searchTerm).

Definition visibleLocations (searchTerm : string) (s : State) : list LocationStats.t :=
  List.filter (locationMatches searchTerm) (locationStats s).

End Search.

(** The guard has a name, that is, its first row had the column. *)
Definition named (guard : GuardStats.t) : bool :=
  match GuardStats.name guard with
  | Some _ => true
  | None => false
  end.

(** ASCII lower-casing, the host function at which the search statements
    are run on examples. *)
Definition lower_ascii (c : ascii) : ascii :=
  let n := nat_of_ascii c in
  if (Nat.leb 65 n && Nat.leb n 90)%bool then ascii_of_nat (n + 32) else c.

Fixpoint ascii_toLowerCase (s : string) : string :=
  match s with
  | EmptyString => EmptyString
  | String c r => String (lower_ascii c) (ascii_toLowerCase r)
  end.

(** *** Loading *)

(** What a [catch] receives: an [Error] with its message, or another value. *)
Inductive Thrown : Type :=
| ErrorObject (message : string)
| OtherValue.

(** How the retrieval of one dataset ends: [fetch], [text] or [parse]
    raised; the response was not ok; or the rows were parsed. *)
Inductive Outcome (A : Type) : Type :=
| Raised (e : Thrown)
| NotOk
| Parsed (rows : list A).

Arguments Raised {A} e.
Arguments NotOk {A}.
Arguments Parsed {A} rows.

(** The cells around the dashboard state: [loading], [error] and the
    state of the engine. *)
Module Shell.
Record t : Type := mk {
  loading : bool;
  error : option string;
  dashboard : State }.
End Shell.

Definition initialShell : Shell.t := Shell.mk true None initialState.

(** The [try] block of [fetchData]: the raw sets are stored after both
    datasets were retrieved. *)
Definition tryFetch (activity : Outcome ActivityRecord.t)
    (attendance : Outcome AttendanceRecord.t) (s : State) : State + Thrown :=
  match activity with
  | Raised e => inr e
  | NotOk => inr (ErrorObject "Failed to load activity data")
  | Parsed activityRows =>
      match attendance with
      | Raised e => inr e
      | NotOk => inr (ErrorObject "Failed to load attendance data")
      | Parsed attendanceRows =>
          inl (setAttendanceDataRaw attendanceRows (setActivityDataRaw activityRows s))
      end
  end.

(** [fetchData]: [setLoading(true)], [setError(null)], the [try] block, the
    [catch] that stores the message, and [finally] [setLoading(false)]. *)
Definition fetchData (activity : Outcome ActivityRecord.t)
    (attendance : Outcome AttendanceRecord.t) (sh : Shell.t) : Shell.t :=
  match tryFetch activity attendance (Shell.dashboard sh) with
  | inl s => Shell.mk false None s
  | inr e =>
      Shell.mk false
        (Some (match e with
               | ErrorObject message => message
               | OtherValue => "Error loading dashboard data"
               end))
        (Shell.dashboard sh)
  end.

(** What the component returns: the loading screen, the error screen when
    the stored message is truthy, else the dashboard. *)
Inductive Screen : Type :=
| LoadingScreen
| ErrorScreen (message : string)
| DashboardScreen.

Definition screen (sh : Shell.t) : Screen :=
  if Shell.loading sh then LoadingScreen
  else match Shell.error sh with
       | Some message => if truthy message then ErrorScreen message else DashboardScreen
       | None => DashboardScreen
       end.

(** ** Further invariants of the loops *)


Section GuardInvariant.

Variable Date_parse : string -> option Z.


End GuardInvariant.


(** *** Further example inputs *)

Definition ex_guards : list ActivityRecord.t :=
  [ ActivityRecord.mk "101" (Some "Asha Rao") "2024-01-15T09:05:00Z" "Scan" (Some "Gate-1")
      "12m" "On Time";
    ActivityRecord.mk "102" (Some "Ben Ito") "2024-01-15T22:40:00Z" "Scan" (Some "Depot")
      "80m" "Late";
    ActivityRecord.mk "101" (Some "Asha R.") "2024-01-15T07:30:00Z" "Scan" (Some "Gate-2")
      "64m" "Late";
    ActivityRecord.mk "101" (Some "Asha Rao") "2024-01-15T23:10:00Z" "Scan" (Some "Gate-1")
      "55m" "Late" ].

Definition ex_shifts : list AttendanceRecord.t :=
  [ attendanceRow "2024-01-15" "Gate-1" "On-time" "1";
    attendanceRow "2024-01-15" "Depot" "00:30" "2";
    attendanceRow "2024-01-16" "Gate-1" "On-time" "";
    attendanceRow "2024-01-16" "" "On-time" "7" ].

Definition ex_untimed : list ActivityRecord.t :=
  [ ActivityRecord.mk "101" (Some "Asha Rao") "" "Scan" (Some "Gate-1") "80m" "Late";
    ActivityRecord.mk "102" (Some "Ben Ito") "" "Scan" (Some "Depot") "12m" "On Time" ].



(** The state with both raw sets stored and no range, the same with the
    range [ex_bounds], and the states the effect leaves from them. *)
Definition ex_dashboard : State :=
  setAttendanceDataRaw ex_shifts (setActivityDataRaw ex_guards initialState).

Definition ex_ranged : State :=
  setEndDate (snd ex_bounds) (setStartDate (fst ex_bounds) ex_dashboard).

Definition completed (m : completion State) (otherwise : State) : State :=
  match m with
  | Normal s => s
  | Throw _ => otherwise
  end.

Definition ex_shown : State :=
  Eval vm_compute in
    completed (rangeEffect iso_Date_parse utc_LocalTZA ex_dashboard) ex_dashboard.


(** A state whose second guard comes from a row cut short before the
    user name, and lacks name and post. *)
Definition ex_cutShort : State :=
  setGuardStats
    [ GuardStats.mk "101" (Some "Asha Rao") (Some "Gate-1") 3 55 2 true 0
        "2024-01-15T23:10:00Z" warning;
      GuardStats.mk "102" None None 1 80 1 false 0 "2024-01-15T22:40:00Z" warning ]
    ex_shown.
(** * Properties *)

(** ** Loops *)

Lemma forEach_nil {A S : Type} (body : S -> A -> completion S) (st : S) :
  forEach body [] st = Normal st.
Proof. reflexivity. Qed.

Lemma forEach_snoc {A S : Type} (body : S -> A -> completion S)
    (data : list A) (a : A) (st : S) :
  forEach body (data ++ [a]) st = forEach body data st ≫= fun s => body s a.
Proof. unfold forEach. rewrite fold_left_app. reflexivity. Qed.

Lemma fold_Throw {A S : Type} (body : S -> A -> completion S) (data : list A) (e : error) :
  fold_left (fun acc a => acc ≫= fun s => body s a) data (Throw e) = Throw e.
Proof. induction data as [|a data IH]; simpl; [reflexivity | exact IH]. Qed.

Lemma forEach_cons {A S : Type} (body : S -> A -> completion S)
    (data : list A) (a : A) (st : S) :
  forEach body (a :: data) st = body st a ≫= forEach body data.
Proof.
  unfold forEach. simpl. destruct (body st a) as [s | e]; simpl.
  - reflexivity.
  - apply fold_Throw.
Qed.

(** A loop invariant over a [forEach] that completes. *)
Lemma forEach_invariant {A S : Type} (body : S -> A -> completion S)
    (I : list A -> S -> Prop) (st0 : S) :
  I [] st0 ->
  (forall done a st st', I done st -> body st a = Normal st' -> I (done ++ [a]) st') ->
  forall data st, forEach body data st0 = Normal st -> I data st.
Proof.
  intros Hinit Hstep data.
  induction data as [|a data IH] using rev_ind; intros st Hrun.
  - rewrite forEach_nil in Hrun. injection Hrun as <-. exact Hinit.
  - rewrite forEach_snoc in Hrun.
    destruct (forEach body data st0) as [s | e] eqn:Hpre; simpl in Hrun.
    + eapply Hstep; [apply IH; reflexivity | exact Hrun].
    + discriminate.
Qed.

(** ** Objects *)

Section ObjectFacts.
Context {V : Type}.
Implicit Types (o : list (string * V)) (k : string) (v : V).

Lemma obj_get_set_eq o k v : obj_get k (obj_set k v o) = Some v.
Proof.
  induction o as [|[k' v'] o IH]; simpl.
  - rewrite String.eqb_refl. reflexivity.
  - destruct (String.eqb k k') eqn:E; simpl; rewrite ?String.eqb_refl, ?E; auto.
Qed.

Lemma obj_get_set_ne o k k' v : k <> k' -> obj_get k' (obj_set k v o) = obj_get k' o.
Proof.
  intros Hne. induction o as [|[k0 v0] o IH]; simpl.
  - destruct (String.eqb_spec k' k); [congruence | reflexivity].
  - destruct (String.eqb_spec k k0) as [-> | Hk]; simpl.
    + destruct (String.eqb_spec k' k0); [congruence | reflexivity].
    + rewrite IH. reflexivity.
Qed.

Lemma obj_set_set o k v v' : obj_set k v' (obj_set k v o) = obj_set k v' o.
Proof.
  induction o as [|[k0 v0] o IH]; simpl.
  - rewrite String.eqb_refl. reflexivity.
  - destruct (String.eqb k k0) eqn:E; simpl; rewrite ?String.eqb_refl, ?E, ?IH; auto.
Qed.

Lemma obj_get_elem_of o k v : obj_get k o = Some v -> (k, v) ∈ o.
Proof.
  induction o as [|[k0 v0] o IH]; simpl; [discriminate |].
  destruct (String.eqb_spec k k0) as [-> | Hk]; intros H.
  - injection H as ->. left.
  - right. auto.
Qed.

Lemma obj_get_None o k : obj_get k o = None <-> k ∉ o.*1.
Proof.
  induction o as [|[k0 v0] o IH]; simpl.
  - split; [intros _; apply not_elem_of_nil | reflexivity].
  - rewrite not_elem_of_cons. destruct (String.eqb_spec k k0) as [-> | Hk].
    + split; [discriminate | intros [? _]; congruence].
    + rewrite IH. tauto.
Qed.

Lemma elem_of_obj_get o k v : NoDup o.*1 -> (k, v) ∈ o -> obj_get k o = Some v.
Proof.
  induction o as [|[k0 v0] o IH]; simpl; intros Hnd Hin.
  - apply elem_of_nil in Hin. contradiction.
  - apply NoDup_cons in Hnd as [Hk0 Hnd]. apply elem_of_cons in Hin as [Heq | Hin].
    + injection Heq as -> ->. rewrite String.eqb_refl. reflexivity.
    + destruct (String.eqb_spec k k0) as [-> | Hk]; [| auto].
      exfalso. apply Hk0. apply list_elem_of_fmap. exists (k0, v). auto.
Qed.

Lemma obj_set_keys o k v :
  (obj_set k v o).*1 = match obj_get k o with Some _ => o.*1 | None => o.*1 ++ [k] end.
Proof.
  induction o as [|[k0 v0] o IH]; csimpl; [reflexivity |].
  destruct (String.eqb_spec k k0) as [-> | Hk]; csimpl; [reflexivity |].
  rewrite IH. destruct (obj_get k o); reflexivity.
Qed.

Lemma obj_get_key o k v : obj_get k o = Some v -> k ∈ o.*1.
Proof.
  intros H. apply obj_get_elem_of in H. apply list_elem_of_fmap. exists (k, v). auto.
Qed.

Lemma obj_set_elem_of_keys o k0 v k : k ∈ (obj_set k0 v o).*1 <-> k ∈ o.*1 \/ k = k0.
Proof.
  rewrite obj_set_keys. destruct (obj_get k0 o) eqn:E.
  - apply obj_get_key in E. split; [auto | intros [? | ->]; assumption].
  - rewrite elem_of_app, list_elem_of_singleton. reflexivity.
Qed.

Lemma obj_set_NoDup o k v : NoDup o.*1 -> NoDup (obj_set k v o).*1.
Proof.
  intros Hnd. rewrite obj_set_keys. destruct (obj_get k o) eqn:E; [exact Hnd |].
  apply NoDup_app. split; [exact Hnd |]. split; [| apply NoDup_singleton].
  intros k' Hk ->%list_elem_of_singleton. apply obj_get_None in E. contradiction.
Qed.

(** Ensuring an entry and then updating it amounts to one step. *)
Lemma entry_ensure_update o k v (f : V -> V) :
  entry_update f k (entry_ensure k v o)
  = Normal (entryStep k (fun ov => f (default v ov)) o).
Proof.
  unfold entry_update, entry_ensure, entryStep.
  destruct (obj_get k o) eqn:E; simpl.
  - rewrite E. reflexivity.
  - destruct (inherited k); [rewrite E; reflexivity |].
    rewrite obj_get_set_eq, obj_set_set. reflexivity.
Qed.

(** A further update of the entry is part of the same step. *)
Lemma entry_update_step o k (step : option V -> V) (f : V -> V) :
  entry_update f k (entryStep k step o) = Normal (entryStep k (fun ov => f (step ov)) o).
Proof.
  unfold entry_update, entryStep.
  destruct (obj_get k o) eqn:E.
  - rewrite obj_get_set_eq, obj_set_set. reflexivity.
  - destruct (inherited k) eqn:Hk; [rewrite E; reflexivity |].
    rewrite obj_get_set_eq, obj_set_set. reflexivity.
Qed.

Lemma entryStep_ext o k (f g : option V -> V) :
  (forall ov, f ov = g ov) -> entryStep k f o = entryStep k g o.
Proof.
  intros H. unfold entryStep. rewrite (H None).
  destruct (obj_get k o) as [v |]; [rewrite (H (Some v)) |]; reflexivity.
Qed.

Lemma entryStep_elem_of_keys o k0 (step : option V -> V) k :
  k ∈ (entryStep k0 step o).*1 <-> k ∈ o.*1 \/ (k = k0 /\ inherited k0 = false).
Proof.
  unfold entryStep. destruct (obj_get k0 o) eqn:E.
  - rewrite obj_set_elem_of_keys. apply obj_get_key in E.
    split; [intros [? | ->]; auto | intros [? | [-> _]]; auto].
  - destruct (inherited k0).
    + split; [auto | intros [? | [_ ?]]; [assumption | discriminate]].
    + rewrite obj_set_elem_of_keys. split; intros [? | ?]; auto. tauto.
Qed.

Lemma entryStep_NoDup o k (step : option V -> V) :
  NoDup o.*1 -> NoDup (entryStep k step o).*1.
Proof.
  intros Hnd. unfold entryStep.
  destruct (obj_get k o); [apply obj_set_NoDup, Hnd |].
  destruct (inherited k); [exact Hnd | apply obj_set_NoDup, Hnd].
Qed.

Lemma entryStep_get_eq o k (step : option V -> V) :
  inherited k = false -> obj_get k (entryStep k step o) = Some (step (obj_get k o)).
Proof.
  intros Hk. unfold entryStep. rewrite Hk.
  destruct (obj_get k o); apply obj_get_set_eq.
Qed.

Lemma entryStep_get_ne o k (step : option V -> V) k' :
  k <> k' -> obj_get k' (entryStep k step o) = obj_get k' o.
Proof.
  intros Hne. unfold entryStep.
  destruct (obj_get k o); [apply obj_get_set_ne; congruence |].
  destruct (inherited k); [reflexivity | apply obj_get_set_ne; congruence].
Qed.

(** Under an inherited name, in a dictionary that has no own property of
    that name, nothing changes. *)
Lemma entryStep_inherited o k (step : option V -> V) :
  inherited k = true -> k ∉ o.*1 -> entryStep k step o = o.
Proof.
  intros Hk Hno. apply obj_get_None in Hno. unfold entryStep. rewrite Hno, Hk. reflexivity.
Qed.

Lemma entry_update_set o k v (f : V -> V) :
  entry_update f k (obj_set k v o) = Normal (obj_set k (f v) o).
Proof. unfold entry_update. rewrite obj_get_set_eq, obj_set_set. reflexivity. Qed.

Lemma insert_by_index_perm (x : Z * V) l : insert_by_index x l ≡ₚ x :: l.
Proof.
  induction l as [|y l IH]; simpl; [reflexivity |].
  destruct (fst x <=? fst y); [reflexivity |].
  rewrite IH. apply Permutation_swap.
Qed.

Lemma sort_by_index_perm (l : list (Z * V)) : sort_by_index l ≡ₚ l.
Proof.
  induction l as [|x l IH]; simpl; [reflexivity |].
  rewrite insert_by_index_perm, IH. reflexivity.
Qed.

(** [Object.values] lists every stored value once. *)
Lemma Object_values_perm o : Object_values o ≡ₚ o.*2.
Proof.
  unfold Object_values. rewrite sort_by_index_perm.
  induction o as [|[k v] o IH]; csimpl; [reflexivity |].
  unfold index_entries, named_entries in *. csimpl.
  destruct (array_index k) as [i |] eqn:E; csimpl.
  - rewrite IH. reflexivity.
  - rewrite <- Permutation_middle, IH. reflexivity.
Qed.

Lemma elem_of_Object_values o v :
  NoDup o.*1 -> v ∈ Object_values o <-> exists k, obj_get k o = Some v.
Proof.
  intros Hnd. rewrite Object_values_perm, list_elem_of_fmap. split.
  - intros [[k v'] [-> Hin]]. exists k. apply elem_of_obj_get; assumption.
  - intros [k Hk]. exists (k, v). split; [reflexivity | apply obj_get_elem_of, Hk].
Qed.

End ObjectFacts.

(** ** Strings *)

Lemma truthy_true (s : string) : truthy s = true <-> s <> "".
Proof. unfold truthy. destruct (String.eqb_spec s ""); simpl; split; congruence. Qed.

Lemma truthy_false (s : string) : truthy s = false <-> s = "".
Proof. unfold truthy. destruct (String.eqb_spec s ""); simpl; split; congruence. Qed.

Lemma radix_digit_nonneg (radix : Z) (c : ascii) (d : Z) :
  radix_digit radix c = Some d -> 0 <= d.
Proof.
  unfold radix_digit, digit_value. cbv zeta.
  repeat match goal with
         | |- context [if ?a && ?b then _ else _] =>
             let E := fresh in destruct (a && b) eqn:E;
             [apply andb_true_iff in E as [?%Z.leb_le ?%Z.leb_le] |]
         end;
    try discriminate;
    (destruct (_ <? radix); [| discriminate]); intros [= <-]; lia.
Qed.

Lemma digits_prefix_Some (radix a : Z) (s : string) :
  0 <= radix -> 0 <= a ->
  exists v, digits_prefix radix (Some a) s = Some v /\ 0 <= v.
Proof.
  intros Hr. revert a. induction s as [|c s IH]; intros a Ha; simpl.
  - eauto.
  - destruct (radix_digit radix c) as [d |] eqn:E; [| eauto].
    apply IH. apply radix_digit_nonneg in E. simpl. nia.
Qed.

Lemma digit_not_space (c : ascii) : is_digit c = true -> is_white_space c = false.
Proof.
  unfold is_digit, is_white_space. cbv zeta. intros H.
  apply andb_true_iff in H as [H1 H2]. apply Z.leb_le in H1, H2.
  apply orb_false_iff. split.
  - apply andb_false_iff. right. apply Z.leb_gt. lia.
  - apply Z.eqb_neq. lia.
Qed.

Lemma digit_radix_10 (c : ascii) :
  is_digit c = true -> exists d, radix_digit 10 c = Some d /\ 0 <= d.
Proof.
  unfold is_digit, radix_digit, digit_value. cbv zeta. intros H. rewrite H.
  apply andb_true_iff in H as [H1 H2]. apply Z.leb_le in H1, H2.
  destruct (Z.ltb_spec (Z.of_nat (nat_of_ascii c) - 48) 10); [| lia].
  eexists. split; [reflexivity | lia].
Qed.

Lemma read_sign_digit (c : ascii) (r : string) :
  is_digit c = true -> read_sign (String c r) = (1, String c r).
Proof. destruct c as [[] [] [] [] [] [] [] []]; intros H; try discriminate H; reflexivity. Qed.

Lemma read_radix_digits (c : ascii) (r : string) :
  read_radix (String c (take_digits r)) = (10, String c (take_digits r)).
Proof.
  destruct c as [[] [] [] [] [] [] [] []]; try reflexivity.
  destruct r as [|c2 r]; simpl; [reflexivity |].
  destruct (is_digit c2) eqn:E; [| reflexivity].
  destruct c2 as [[] [] [] [] [] [] [] []]; try reflexivity; discriminate E.
Qed.

(** On a run of decimal digits [parseInt] is a number, never NaN. *)
Lemma parseInt_digit_run (c : ascii) (r : string) :
  is_digit c = true ->
  exists v, parseInt (String c (take_digits r)) = Some v /\ 0 <= v.
Proof.
  intros Hc. unfold parseInt. cbn [trim_start].
  rewrite (digit_not_space c Hc), (read_sign_digit c _ Hc), read_radix_digits.
  cbn [digits_prefix]. destruct (digit_radix_10 c Hc) as (d & -> & Hd).
  destruct (digits_prefix_Some 10 (10 * default 0 None + d) (take_digits r)) as (v & -> & Hv);
    [lia | simpl; lia |].
  exists (1 * v). split; [reflexivity | lia].
Qed.

Lemma match_digits_parseInt (s ds : string) :
  match_digits s = Some ds -> exists v, parseInt ds = Some v /\ 0 <= v.
Proof.
  induction s as [|c s IH]; simpl; [discriminate |].
  destruct (is_digit c) eqn:Hc; [| exact IH].
  intros H. injection H as <-. apply parseInt_digit_run, Hc.
Qed.

(** ** The body of the activity loop *)

Lemma list_insert_as_alter {A : Type} (f : A -> A) (l : list A) (i : nat) (x : A) :
  l !! i = Some x -> <[i := f x]> l = alter f i l.
Proof.
  revert i. induction l as [|y l IH]; intros [|i] H; simplify_eq/=; [reflexivity |].
  f_equal. apply IH, H.
Qed.

Lemma bucket_update_ok (f : ActivityData.t -> ActivityData.t) (h : Z)
    (arr : list ActivityData.t) (b : ActivityData.t) :
  0 <= h -> arr !! Z.to_nat h = Some b ->
  bucket_update f (Some h) arr = Normal (alter f (Z.to_nat h) arr).
Proof.
  intros Hh Hb. unfold bucket_update. destruct (Z.leb_spec 0 h); [| lia].
  rewrite Hb. f_equal. apply list_insert_as_alter, Hb.
Qed.

Lemma HourFromTime_range (t : Z) : 0 <= HourFromTime t < 24.
Proof. unfold HourFromTime. apply Z.mod_pos_bound. lia. Qed.

Lemma match_digits_empty : match_digits "" = None.
Proof. reflexivity. Qed.

Section ActivityBody.

Variable Date_parse : string -> option Z.
Variable LocalTZA : Z -> Z.


Lemma hourOf_range (a : ActivityRecord.t) (h : Z) :
  hourOf Date_parse LocalTZA a = Some h -> 0 <= h < 24.
Proof.
  unfold hourOf, getHours, new_Date.
  destruct (Date_parse _); intros [= <-]. apply HourFromTime_range.
Qed.

Lemma hourOf_parse (a : ActivityRecord.t) :
  hourOf Date_parse LocalTZA a = None <-> Date_parse (ActivityRecord.Date_Time a) = None.
Proof.
  unfold hourOf, getHours, new_Date.
  destruct (Date_parse _); simpl; split; congruence.
Qed.

(** A row without a timestamp leaves every loop variable as it is. *)
Lemma body_skip (st : ActivityLoop) (a : ActivityRecord.t) :
  truthy (ActivityRecord.Date_Time a) = false -> activityBody Date_parse LocalTZA st a = Normal st.
Proof. intros H. unfold activityBody. rewrite H. reflexivity. Qed.

(** A row whose timestamp is not empty and does not parse aborts the loop:
    [getHours] is NaN and [hourlyData[NaN]] is undefined. *)
Lemma body_invalid_date (st : ActivityLoop) (a : ActivityRecord.t) :
  truthy (ActivityRecord.Date_Time a) = true ->
  Date_parse (ActivityRecord.Date_Time a) = None ->
  activityBody Date_parse LocalTZA st a = Throw TypeError.
Proof.
  intros H1 H2. unfold activityBody, countHour, getHours, new_Date.
  rewrite H1, H2. reflexivity.
Qed.

(** A row with a valid timestamp: the body completes and the loop variables
    change as [activityStep] says. *)
Lemma body_step (st : ActivityLoop) (a : ActivityRecord.t) (h : Z) :
  truthy (ActivityRecord.Date_Time a) = true ->
  hourOf Date_parse LocalTZA a = Some h ->
  (Z.to_nat h < length (hourlyData st))%nat ->
  activityBody Date_parse LocalTZA st a = Normal (activityStep Date_parse h a st).
Proof.
  intros Ht Hh Hlen.
  pose proof (hourOf_range a h Hh) as [Hr _].
  destruct (lookup_lt_is_Some_2 _ _ Hlen) as [b Hb].
  assert (Hb2 : alter ActivityData.incr_count (Z.to_nat h) (hourlyData st) !! Z.to_nat h
                = Some (ActivityData.incr_count b)).
  { rewrite list_lookup_alter_eq, Hb. reflexivity. }
  unfold activityBody. rewrite Ht. cbn [negb].
  unfold hourOf in Hh. rewrite Hh.
  unfold countHour. rewrite (bucket_update_ok _ _ _ _ Hr Hb). cbn [mbind completion_bind].
  unfold trackGuard, trackAccuracy, activityStep, bucketStep, guardStep, isIssue, accuracyOf.
  cbn [hourlyData uniqueGuards totalLocationAccuracy locationReadings locationIssues
       guardMetrics].
  destruct (truthy (ActivityRecord.Service_Number a)) eqn:Hsn;
    [rewrite entry_ensure_update |]; cbn [mbind completion_bind];
    cbn [hourlyData uniqueGuards totalLocationAccuracy locationReadings locationIssues
         guardMetrics];
    (destruct (truthy (ActivityRecord.Location_Accuracy a)) eqn:Hla;
     [| apply truthy_false in Hla; rewrite Hla, match_digits_empty; cbn [mbind option_bind];
        rewrite !Z.add_0_r; reflexivity]);
    (destruct (match_digits _) as [ds |] eqn:Hm; cbn [mbind option_bind];
     [| rewrite !Z.add_0_r; reflexivity]);
    destruct (match_digits_parseInt _ _ Hm) as (v & Hv & _); rewrite Hv;
    (destruct (50 <? v); [| rewrite Z.add_0_r; reflexivity]);
    rewrite (bucket_update_ok _ _ _ _ Hr Hb2), ?entry_update_step;
    cbn [mbind completion_bind]; rewrite list_alter_alter_eq; reflexivity.
Qed.

End ActivityBody.

(** ** The activity loop *)

Lemma sumZ_app (l1 l2 : list Z) : sumZ (l1 ++ l2) = sumZ l1 + sumZ l2.
Proof. induction l1 as [|x l1 IH]; simpl; [reflexivity | rewrite IH; lia]. Qed.

Lemma sumZ_count_alter (f : ActivityData.t -> ActivityData.t)
    (l : list ActivityData.t) (i : nat) (b : ActivityData.t) :
  l !! i = Some b ->
  ActivityData.count (f b) = ActivityData.count b + 1 ->
  sumZ (ActivityData.count <$> alter f i l) = sumZ (ActivityData.count <$> l) + 1.
Proof.
  revert i. induction l as [|x l IH]; intros [|i] Hl Hf; simplify_eq/=.
  - rewrite Hf. lia.
  - rewrite (IH i Hl Hf). lia.
Qed.

Lemma timestamped_snoc (data : list ActivityRecord.t) (a : ActivityRecord.t) :
  timestamped (data ++ [a])
  = timestamped data ++ (if truthy (ActivityRecord.Date_Time a) then [a] else []).
Proof. unfold timestamped. rewrite List.filter_app. reflexivity. Qed.

Lemma rowsOf_snoc (k : string) (data : list ActivityRecord.t) (a : ActivityRecord.t) :
  truthy (ActivityRecord.Date_Time a) = true ->
  rowsOf k (data ++ [a])
  = rowsOf k data ++ (if String.eqb (ActivityRecord.Service_Number a) k then [a] else []).
Proof.
  intros H. unfold rowsOf. rewrite timestamped_snoc, H, List.filter_app. reflexivity.
Qed.

Lemma readings_snoc (data : list ActivityRecord.t) (a : ActivityRecord.t) :
  truthy (ActivityRecord.Date_Time a) = true ->
  readings (data ++ [a])
  = readings data ++ (match accuracyOf a with Some v => [v] | None => [] end).
Proof.
  intros H. unfold readings. rewrite timestamped_snoc, H, omap_app. simpl.
  destruct (accuracyOf a); reflexivity.
Qed.

Lemma guardStep_fields (Date_parse : string -> option Z) (a : ActivityRecord.t)
    (og : option GuardStats.t) :
  let g0 := default (newGuard a) og in
  let g := guardStep Date_parse a og in
  GuardStats.id g = GuardStats.id g0
  /\ GuardStats.activities g = GuardStats.activities g0 + 1
  /\ GuardStats.locationIssues g
     = GuardStats.locationIssues g0 + (if isIssue a then 1 else 0)
  /\ GuardStats.onTime g = GuardStats.onTime g0.
Proof.
  unfold guardStep, touchGuard, flagGuard. cbv zeta.
  destruct (isIssue a), (date_gt _ _); simpl; repeat split; lia.
Qed.

Section ActivityLoopFacts.

Variable Date_parse : string -> option Z.
Variable LocalTZA : Z -> Z.


Lemma rowsAtHour_snoc (h : Z) (data : list ActivityRecord.t) (a : ActivityRecord.t) :
  truthy (ActivityRecord.Date_Time a) = true ->
  rowsAtHour Date_parse LocalTZA h (data ++ [a])
  = rowsAtHour Date_parse LocalTZA h data
    ++ (if bool_decide (hourOf Date_parse LocalTZA a = Some h) then [a] else []).
Proof.
  intros H. unfold rowsAtHour.
  rewrite timestamped_snoc, H, List.filter_app. reflexivity.
Qed.

Lemma initial_invariant : ActivityInv Date_parse LocalTZA [] initialActivityLoop.
Proof.
  split; simpl; try reflexivity.
  - intros h b Hb. unfold initialHourlyData in Hb.
    apply list_lookup_fmap_Some in Hb as (n & -> & Hn).
    apply lookup_seq in Hn as [-> _]. simpl. auto.
  - constructor.
  - intros k. split; [intros H; inversion H | intros (_ & _ & H); contradiction].
  - intros k. split; [intros H; inversion H | intros [_ H]; contradiction].
  - discriminate.
Qed.

Lemma skip_invariant (data : list ActivityRecord.t) (a : ActivityRecord.t) (st : ActivityLoop) :
  truthy (ActivityRecord.Date_Time a) = false ->
  ActivityInv Date_parse LocalTZA data st ->
  ActivityInv Date_parse LocalTZA (data ++ [a]) st.
Proof.
  intros H [].
  assert (Ht : timestamped (data ++ [a]) = timestamped data).
  { rewrite timestamped_snoc, H. apply app_nil_r. }
  split; unfold rowsAtHour, rowsOf, readings, firstSeen, rowsOf in *;
    rewrite ?Ht; assumption.
Qed.

Lemma step_invariant (data : list ActivityRecord.t) (a : ActivityRecord.t)
    (st : ActivityLoop) (h : Z) :
  truthy (ActivityRecord.Date_Time a) = true ->
  hourOf Date_parse LocalTZA a = Some h ->
  ActivityInv Date_parse LocalTZA data st ->
  ActivityInv Date_parse LocalTZA (data ++ [a]) (activityStep Date_parse h a st).
Proof.
  intros Ht Hh HI.
  pose proof (hourOf_range _ _ a h Hh) as Hr.
  destruct HI as [Hlen Hbucket Hsum Hnd Hkeys Huniq Hguard Htot Hread Hiss].
  assert (Hlt : (Z.to_nat h < length (hourlyData st))%nat) by (rewrite Hlen; lia).
  destruct (lookup_lt_is_Some_2 _ _ Hlt) as [b0 Hb0].
  split; unfold activityStep;
    cbn [hourlyData uniqueGuards totalLocationAccuracy locationReadings locationIssues
         guardMetrics].
  - rewrite length_alter. exact Hlen.
  - intros i b Hb. rewrite rowsAtHour_snoc by exact Ht. rewrite List.filter_app, !length_app.
    destruct (decide (Z.to_nat h = i)) as [<- | Hne].
    + rewrite list_lookup_alter_eq, Hb0 in Hb. injection Hb as <-.
      destruct (Hbucket _ _ Hb0) as (E1 & E2 & E3).
      rewrite bool_decide_eq_true_2 by (rewrite Hh; f_equal; lia).
      unfold bucketStep. simpl. destruct (isIssue a); simpl; rewrite ?E1, ?E2, ?E3; lia.
    + rewrite list_lookup_alter_ne in Hb by exact Hne.
      destruct (Hbucket _ _ Hb) as (E1 & E2 & E3).
      rewrite bool_decide_eq_false_2 by (rewrite Hh; intros [= ->]; lia).
      simpl. rewrite E1, E2, E3. lia.
  - rewrite (sumZ_count_alter _ _ _ _ Hb0), Hsum.
    + rewrite timestamped_snoc, Ht, length_app. simpl. lia.
    + unfold bucketStep. destruct (isIssue a); reflexivity.
  - destruct (truthy (ActivityRecord.Service_Number a)); [apply entryStep_NoDup |]; exact Hnd.
  - intros k. rewrite rowsOf_snoc by exact Ht.
    destruct (truthy (ActivityRecord.Service_Number a)) eqn:Hsn.
    + apply truthy_true in Hsn.
      rewrite entryStep_elem_of_keys, Hkeys.
      destruct (String.eqb_spec (ActivityRecord.Service_Number a) k) as [E | E].
      * subst k. split; [| intros (_ & Hk & _); right; auto].
        assert (Hrows : rowsOf (ActivityRecord.Service_Number a) data ++ [a] <> [])
          by (intros H; apply app_eq_nil in H as [_ H]; discriminate).
        intros [(_ & Hk & _) | [_ Hk]]; auto.
      * rewrite app_nil_r. split; [intros [? | [-> _]]; [assumption | contradiction] | auto].
    + apply truthy_false in Hsn. rewrite Hkeys.
      destruct (String.eqb_spec (ActivityRecord.Service_Number a) k) as [E | E].
      * rewrite <- E, Hsn. split; intros [? _]; contradiction.
      * rewrite app_nil_r. reflexivity.
  - intros k. rewrite rowsOf_snoc by exact Ht.
    destruct (truthy (ActivityRecord.Service_Number a)) eqn:Hsn.
    + apply truthy_true in Hsn. rewrite elem_of_union, elem_of_singleton, Huniq.
      destruct (String.eqb_spec (ActivityRecord.Service_Number a) k) as [E | E].
      * subst k. split; [intros _ | auto]. split; [exact Hsn |].
        intros H. apply app_eq_nil in H as [_ H]. discriminate.
      * rewrite app_nil_r. split; [intros [-> | ?]; [contradiction | assumption] | auto].
    + apply truthy_false in Hsn. rewrite Huniq.
      destruct (String.eqb_spec (ActivityRecord.Service_Number a) k) as [E | E].
      * rewrite <- E, Hsn. split; intros [? _]; contradiction.
      * rewrite app_nil_r. reflexivity.
  - intros k g. rewrite rowsOf_snoc by exact Ht. unfold firstSeen.
    rewrite rowsOf_snoc by exact Ht. rewrite List.filter_app, !length_app.
    destruct (truthy (ActivityRecord.Service_Number a)) eqn:Hsn.
    + apply truthy_true in Hsn.
      destruct (String.eqb_spec (ActivityRecord.Service_Number a) k) as [E | E].
      * subst k. destruct (inherited (ActivityRecord.Service_Number a)) eqn:Hinh.
        { rewrite entryStep_inherited; [| exact Hinh |].
          - intros Hg. apply obj_get_key, Hkeys in Hg as (_ & Hk & _). congruence.
          - intros Hk. apply Hkeys in Hk as (_ & Hk & _). congruence. }
        rewrite entryStep_get_eq by exact Hinh. intros [= <-].
        pose proof (guardStep_fields Date_parse a
                      (obj_get (ActivityRecord.Service_Number a) (guardMetrics st)))
          as (F1 & F2 & F3 & F4). cbv zeta in *.
        rewrite F1, F2, F3, F4.
        destruct (obj_get (ActivityRecord.Service_Number a) (guardMetrics st)) as [g0 |] eqn:E.
        -- destruct (Hguard _ _ E) as (G1 & G2 & G3 & a0 & G4 & G5). simpl.
           rewrite G1, G2, G3. repeat split; [destruct (isIssue a); simpl; lia .. |].
           exists a0. split; [| exact G5]. unfold firstSeen in G4.
           destruct (rowsOf _ data); [discriminate | exact G4].
        -- assert (Hnone : rowsOf (ActivityRecord.Service_Number a) data = []).
           { apply obj_get_None in E. destruct (rowsOf _ data) eqn:Er; [reflexivity |].
             exfalso. apply E, Hkeys.
             split; [exact Hsn | split; [exact Hinh | rewrite Er; discriminate]]. }
           rewrite Hnone. simpl. repeat split; [destruct (isIssue a); simpl; lia .. |].
           exists a. split; reflexivity.
      * rewrite entryStep_get_ne by exact E. rewrite !app_nil_r. simpl.
        rewrite !Nat.add_0_r. apply Hguard.
    + destruct (String.eqb_spec (ActivityRecord.Service_Number a) k) as [E | E].
      * subst k. intros Hg. exfalso. apply truthy_false in Hsn.
        apply obj_get_key, Hkeys in Hg as [Hk _]. contradiction.
      * rewrite !app_nil_r. simpl. rewrite !Nat.add_0_r. apply Hguard.
  - rewrite readings_snoc by exact Ht. rewrite Htot, sumZ_app.
    destruct (accuracyOf a); simpl; f_equal; lia.
  - rewrite readings_snoc by exact Ht. rewrite Hread, length_app.
    destruct (accuracyOf a); simpl; lia.
  - rewrite readings_snoc by exact Ht. rewrite Hiss, List.filter_app, length_app.
    unfold isIssue. destruct (accuracyOf a) as [v |]; simpl; [destruct (50 <? v) |]; simpl; lia.
Qed.

(** The invariant over a loop that completes. *)
Lemma activity_invariant (data : list ActivityRecord.t) (st : ActivityLoop) :
  forEach (activityBody Date_parse LocalTZA) data initialActivityLoop = Normal st ->
  ActivityInv Date_parse LocalTZA data st.
Proof.
  apply (forEach_invariant (activityBody Date_parse LocalTZA) (ActivityInv Date_parse LocalTZA)).
  - apply initial_invariant.
  - intros done a s s' HI Hb.
    destruct (truthy (ActivityRecord.Date_Time a)) eqn:Ht.
    + destruct (hourOf Date_parse LocalTZA a) as [h |] eqn:Hh.
      * pose proof (hourOf_range _ _ a h Hh) as Hr.
        rewrite (body_step _ _ s a h Ht Hh) in Hb
          by (rewrite (inv_length _ _ _ _ HI); lia).
        injection Hb as <-. apply step_invariant; assumption.
      * apply hourOf_parse in Hh. rewrite (body_invalid_date _ _ s a Ht Hh) in Hb.
        discriminate.
    + rewrite (body_skip _ _ s a Ht) in Hb. injection Hb as <-.
      apply skip_invariant; assumption.
Qed.

(** The loop completes exactly on the inputs whose timestamps all parse. *)
Lemma activity_loop_completes (data : list ActivityRecord.t) :
  timestamps_ok Date_parse data = true ->
  exists st, forEach (activityBody Date_parse LocalTZA) data initialActivityLoop = Normal st.
Proof.
  induction data as [|a data IH] using rev_ind; intros Hok.
  - eexists. reflexivity.
  - unfold timestamps_ok in Hok. rewrite forallb_app in Hok.
    apply andb_true_iff in Hok as [Hok Ha]. simpl in Ha. rewrite andb_true_r in Ha.
    destruct (IH Hok) as [st Hst]. rewrite forEach_snoc, Hst. simpl.
    destruct (truthy (ActivityRecord.Date_Time a)) eqn:Ht.
    + simpl in Ha. unfold parseable in Ha. apply bool_decide_eq_true in Ha as [t Hp].
      pose proof (activity_invariant _ _ Hst) as HI.
      assert (Hh : hourOf Date_parse LocalTZA a = Some (HourFromTime (t + LocalTZA t))).
      { unfold hourOf, getHours, new_Date. rewrite Hp. reflexivity. }
      pose proof (hourOf_range _ _ a _ Hh) as Hr.
      eexists. apply (body_step _ _ st a _ Ht Hh). rewrite (inv_length _ _ _ _ HI). lia.
    + eexists. apply body_skip, Ht.
Qed.

(** A row whose timestamp is not empty and does not parse aborts the loop. *)
Lemma activity_loop_aborts (data : list ActivityRecord.t) (a : ActivityRecord.t) :
  a ∈ data ->
  truthy (ActivityRecord.Date_Time a) = true ->
  Date_parse (ActivityRecord.Date_Time a) = None ->
  forall st, forEach (activityBody Date_parse LocalTZA) data st = Throw TypeError.
Proof.
  intros Hin Ht Hp. induction data as [|x data IH]; intros st.
  - inversion Hin.
  - rewrite forEach_cons. apply elem_of_cons in Hin as [<- | Hin].
    + rewrite (body_invalid_date _ _ st a Ht Hp). reflexivity.
    + destruct (activityBody Date_parse LocalTZA st x) as [s | []]; simpl;
        [apply IH, Hin | reflexivity].
Qed.

End ActivityLoopFacts.

(** ** The attendance loop *)

(** The body never raises: the entry it updates was ensured just before. *)
Lemma attendanceBody_step (st : AttendanceLoop) (r : AttendanceRecord.t) :
  attendanceBody st r
  = Normal (if truthy (AttendanceRecord.Post_Name r) then attendanceStep r st else st).
Proof.
  unfold attendanceBody, attendanceStep, locationStep, missOf.
  destruct (truthy (AttendanceRecord.Post_Name r)); cbn [negb]; [| reflexivity].
  rewrite entry_ensure_update. cbn [mbind completion_bind].
  destruct (String.eqb (AttendanceRecord.Late_Hours r) "On-time"); cbn [negb].
  - reflexivity.
  - rewrite entry_update_step. reflexivity.
Qed.

Lemma posted_snoc (data : list AttendanceRecord.t) (r : AttendanceRecord.t) :
  posted (data ++ [r])
  = posted data ++ (if truthy (AttendanceRecord.Post_Name r) then [r] else []).
Proof. unfold posted. rewrite List.filter_app. reflexivity. Qed.

Lemma rowsAtPost_snoc (k : string) (data : list AttendanceRecord.t) (r : AttendanceRecord.t) :
  truthy (AttendanceRecord.Post_Name r) = true ->
  rowsAtPost k (data ++ [r])
  = rowsAtPost k data ++ (if String.eqb (AttendanceRecord.Post_Name r) k then [r] else []).
Proof. intros H. unfold rowsAtPost. rewrite posted_snoc, H, List.filter_app. reflexivity. Qed.

Lemma locationStep_fields (r : AttendanceRecord.t) (ol : option LocationStats.t) :
  let l0 := default (newLocation (AttendanceRecord.Post_Name r)) ol in
  let l := locationStep r ol in
  LocationStats.name l = LocationStats.name l0
  /\ LocationStats.totalScans l = LocationStats.totalScans l0 + 1
  /\ LocationStats.accuracyIssues l
     = LocationStats.accuracyIssues l0 + (if isLate r then 1 else 0).
Proof.
  unfold locationStep, isLate. cbv zeta.
  destruct (String.eqb _ _); simpl; repeat split; lia.
Qed.

Lemma attendance_initial : AttendanceInv [] initialAttendanceLoop.
Proof.
  split; simpl; try reflexivity.
  - constructor.
  - intros k. split; [intros H; inversion H | intros (_ & _ & H); contradiction].
  - discriminate.
Qed.

Lemma attendance_skip (data : list AttendanceRecord.t) (r : AttendanceRecord.t)
    (st : AttendanceLoop) :
  truthy (AttendanceRecord.Post_Name r) = false ->
  AttendanceInv data st -> AttendanceInv (data ++ [r]) st.
Proof.
  intros H [].
  assert (Hp : posted (data ++ [r]) = posted data).
  { rewrite posted_snoc, H. apply app_nil_r. }
  split; unfold rowsAtPost, missTotal in *; rewrite ?Hp; assumption.
Qed.

Lemma attendance_step (data : list AttendanceRecord.t) (r : AttendanceRecord.t)
    (st : AttendanceLoop) :
  truthy (AttendanceRecord.Post_Name r) = true ->
  AttendanceInv data st -> AttendanceInv (data ++ [r]) (attendanceStep r st).
Proof.
  intros Hp [Hnd Hkeys Hloc Htot Hon Hlate Hmiss].
  pose proof Hp as Hne. apply truthy_true in Hne.
  split; unfold attendanceStep;
    cbn [locationCoverage totalShifts onTime late missedScans].
  - apply entryStep_NoDup, Hnd.
  - intros k. rewrite rowsAtPost_snoc by exact Hp.
    rewrite entryStep_elem_of_keys, Hkeys.
    destruct (String.eqb_spec (AttendanceRecord.Post_Name r) k) as [E | E].
    + subst k. split; [| intros (_ & Hk & _); right; auto].
      assert (Hrows : rowsAtPost (AttendanceRecord.Post_Name r) data ++ [r] <> [])
        by (intros H; apply app_eq_nil in H as [_ H]; discriminate).
      intros [(_ & Hk & _) | [_ Hk]]; auto.
    + rewrite app_nil_r. split; [intros [? | [-> _]]; [assumption | contradiction] | auto].
  - intros k l. rewrite rowsAtPost_snoc by exact Hp. rewrite List.filter_app, !length_app.
    destruct (String.eqb_spec (AttendanceRecord.Post_Name r) k) as [E | E].
    + subst k. destruct (inherited (AttendanceRecord.Post_Name r)) eqn:Hinh.
      { rewrite entryStep_inherited; [| exact Hinh |].
        - intros Hl. apply obj_get_key, Hkeys in Hl as (_ & Hk & _). congruence.
        - intros Hk. apply Hkeys in Hk as (_ & Hk & _). congruence. }
      rewrite entryStep_get_eq by exact Hinh. intros [= <-].
      pose proof (locationStep_fields r
                    (obj_get (AttendanceRecord.Post_Name r) (locationCoverage st)))
        as (F1 & F2 & F3). cbv zeta in *. rewrite F1, F2, F3.
      destruct (obj_get (AttendanceRecord.Post_Name r) (locationCoverage st)) as [l0 |] eqn:E.
      * destruct (Hloc _ _ E) as (G1 & G2 & G3). simpl. rewrite G1, G2, G3.
        repeat split; try reflexivity; destruct (isLate r); simpl; lia.
      * assert (Hnone : rowsAtPost (AttendanceRecord.Post_Name r) data = []).
        { apply obj_get_None in E. destruct (rowsAtPost _ data) eqn:Er; [reflexivity |].
          exfalso. apply E, Hkeys.
          split; [exact Hne | split; [exact Hinh | rewrite Er; discriminate]]. }
        rewrite Hnone. simpl. repeat split; try reflexivity; destruct (isLate r); simpl; lia.
    + rewrite entryStep_get_ne by exact E. simpl. rewrite !Nat.add_0_r. apply Hloc.
  - rewrite posted_snoc, Hp, length_app, Htot. simpl. lia.
  - rewrite posted_snoc, Hp, List.filter_app, length_app, Hon. unfold isLate. simpl.
    destruct (String.eqb (AttendanceRecord.Late_Hours r) "On-time"); simpl; lia.
  - rewrite posted_snoc, Hp, List.filter_app, length_app, Hlate. unfold isLate. simpl.
    destruct (String.eqb (AttendanceRecord.Late_Hours r) "On-time"); simpl; lia.
  - unfold missTotal. rewrite posted_snoc, Hp, fold_left_app. simpl.
    rewrite Hmiss. reflexivity.
Qed.

(** The attendance loop always completes, and the invariant holds of its
    result. *)
Lemma attendance_loop (data : list AttendanceRecord.t) :
  exists st, forEach attendanceBody data initialAttendanceLoop = Normal st
             /\ AttendanceInv data st.
Proof.
  induction data as [|r data IH] using rev_ind.
  - eexists. split; [reflexivity | apply attendance_initial].
  - destruct IH as (st & Hst & HI). rewrite forEach_snoc, Hst. simpl.
    rewrite attendanceBody_step. eexists. split; [reflexivity |].
    destruct (truthy (AttendanceRecord.Post_Name r)) eqn:Hp.
    + apply attendance_step; assumption.
    + apply attendance_skip; assumption.
Qed.

(** ** The activity aggregator *)

Lemma guard_ids (gm : list (string * GuardStats.t)) :
  NoDup gm.*1 ->
  (forall k g, obj_get k gm = Some g -> GuardStats.id g = k) ->
  GuardStats.id <$> gm.*2 = gm.*1.
Proof.
  induction gm as [|[k0 g0] gm IH]; csimpl; intros Hnd Hid; [reflexivity |].
  apply NoDup_cons in Hnd as [Hk0 Hnd]. f_equal.
  - apply Hid. simpl. rewrite String.eqb_refl. reflexivity.
  - apply IH; [exact Hnd |]. intros k g Hg. apply Hid. simpl.
    destruct (String.eqb_spec k k0) as [-> | _]; [| exact Hg].
    exfalso. apply Hk0. apply obj_get_key in Hg. exact Hg.
Qed.


Lemma rowsOf_nonempty (k : string) (data : list ActivityRecord.t) :
  rowsOf k data <> [] <->
  exists a, In a data /\ ActivityRecord.Date_Time a <> ""
            /\ ActivityRecord.Service_Number a = k.
Proof.
  unfold rowsOf, timestamped. split.
  - intros H. destruct (List.filter _ _) as [|a l] eqn:E; [contradiction |].
    assert (Ha : In a (a :: l)) by (left; reflexivity). rewrite <- E in Ha.
    apply filter_In in Ha as [Ha Hk]. apply filter_In in Ha as [Ha Ht].
    exists a. repeat split; [exact Ha | apply truthy_true, Ht | apply String.eqb_eq, Hk].
  - intros (a & Ha & Ht & Hk) E.
    assert (Hin : In a (List.filter
                          (fun a => String.eqb (ActivityRecord.Service_Number a) k)
                          (List.filter (fun a => truthy (ActivityRecord.Date_Time a)) data))).
    { apply filter_In. split; [apply filter_In; split; [exact Ha | apply truthy_true, Ht] |].
      apply String.eqb_eq, Hk. }
    rewrite E in Hin. contradiction.
Qed.

Section ActivityAggregator.

Variable Date_parse : string -> option Z.
Variable LocalTZA : Z -> Z.


Lemma process_publishes (data : list ActivityRecord.t) (s : State) :
  processActivityData Date_parse LocalTZA data s
  = completion_map (fun loop => publishActivity loop s)
      (forEach (activityBody Date_parse LocalTZA) data initialActivityLoop).
Proof.
  unfold processActivityData. destruct (forEach _ _ _); reflexivity.
Qed.

(** On an input whose timestamps all parse the aggregator completes and
    publishes loop variables that satisfy the invariant. *)
Lemma process_completes (data : list ActivityRecord.t) (s : State) :
  timestamps_ok Date_parse data = true ->
  exists loop, forEach (activityBody Date_parse LocalTZA) data initialActivityLoop = Normal loop
                /\ ActivityInv Date_parse LocalTZA data loop
                /\ processActivityData Date_parse LocalTZA data s = Normal (publishActivity loop s).
Proof.
  intros Hok. destruct (activity_loop_completes Date_parse LocalTZA data Hok) as [loop Hl].
  exists loop. split; [exact Hl |].
  split; [apply (activity_invariant Date_parse LocalTZA), Hl |].
  rewrite process_publishes, Hl. reflexivity.
Qed.

Lemma average_published (data : list ActivityRecord.t) (loop : ActivityLoop) (s : State) :
  ActivityInv Date_parse LocalTZA data loop ->
  Metrics.avgLocationAccuracy (metrics (publishActivity loop s)) = averageOf (readings data).
Proof.
  intros HI. simpl. rewrite (inv_total _ _ _ _ HI), (inv_readings _ _ _ _ HI).
  unfold averageOf. destruct (readings data) as [|v l]; [reflexivity |].
  destruct (Z.eqb_spec (Z.of_nat (length (v :: l))) 0) as [E | _]; [simpl in E; lia |].
  reflexivity.
Qed.

Lemma guards_published (data : list ActivityRecord.t) (loop : ActivityLoop) (s : State)
    (g : GuardStats.t) :
  ActivityInv Date_parse LocalTZA data loop ->
  g ∈ guardStats (publishActivity loop s) ->
  exists g0, g = finalStatus g0
             /\ obj_get (GuardStats.id g) (guardMetrics loop) = Some g0.
Proof.
  intros HI Hg. simpl in Hg. apply list_elem_of_fmap in Hg as (g0 & -> & Hg0).
  apply elem_of_Object_values in Hg0 as [k Hk]; [| apply (inv_nodup _ _ _ _ HI)].
  exists g0. split; [reflexivity |].
  destruct (inv_guard _ _ _ _ HI _ _ Hk) as (Hid & _). simpl. rewrite Hid. exact Hk.
Qed.

Lemma guard_ids_published (data : list ActivityRecord.t) (loop : ActivityLoop) (s : State) :
  ActivityInv Date_parse LocalTZA data loop ->
  GuardStats.id <$> guardStats (publishActivity loop s) ≡ₚ (guardMetrics loop).*1.
Proof.
  intros HI. simpl. rewrite <- list_fmap_compose.
  rewrite (list_fmap_ext (GuardStats.id ∘ finalStatus) GuardStats.id) by reflexivity.
  rewrite Object_values_perm.
  rewrite guard_ids; [reflexivity | apply (inv_nodup _ _ _ _ HI) |].
  intros k g Hg. apply (inv_guard _ _ _ _ HI _ _ Hg).
Qed.


(** The distinct-guard count when no service number is an inherited
    property name, and when one is. *)
Lemma unique_guards_all_own (data : list ActivityRecord.t) (loop : ActivityLoop) :
  ActivityInv Date_parse LocalTZA data loop ->
  (forall a, In a data -> ActivityRecord.Date_Time a <> "" ->
             inherited (ActivityRecord.Service_Number a) = false) ->
  size (uniqueGuards loop) = length (guardMetrics loop).*1.
Proof.
  intros HI Hown.
  assert (E : uniqueGuards loop = list_to_set (guardMetrics loop).*1).
  { apply set_eq. intros k.
    rewrite elem_of_list_to_set, (inv_unique _ _ _ _ HI), (inv_keys _ _ _ _ HI).
    split; [| tauto]. intros [H1 H2]. repeat split; auto.
    apply rowsOf_nonempty in H2 as (a & Ha & Ht & <-). apply Hown; assumption. }
  rewrite E. apply size_list_to_set, (inv_nodup _ _ _ _ HI).
Qed.

Lemma unique_guards_counts_inherited (data : list ActivityRecord.t) (loop : ActivityLoop)
    (k : string) :
  ActivityInv Date_parse LocalTZA data loop ->
  k <> "" -> inherited k = true -> rowsOf k data <> [] ->
  (length (guardMetrics loop).*1 < size (uniqueGuards loop))%nat.
Proof.
  intros HI Hne Hinh Hrows.
  assert (Hk : k ∉ (guardMetrics loop).*1).
  { rewrite (inv_keys _ _ _ _ HI). intros (_ & H & _). congruence. }
  assert (Hsub : (list_to_set (k :: (guardMetrics loop).*1) : gset string)
                 ⊆ uniqueGuards loop).
  { intros x. rewrite elem_of_list_to_set, elem_of_cons, (inv_unique _ _ _ _ HI).
    intros [-> | Hx]; [auto |]. apply (inv_keys _ _ _ _ HI) in Hx. tauto. }
  apply subseteq_size in Hsub.
  rewrite size_list_to_set in Hsub
    by (constructor; [exact Hk | apply (inv_nodup _ _ _ _ HI)]).
  simpl in Hsub. lia.
Qed.

(** The sum of the 24 bucket counts is the number of rows with a timestamp,
    all of which parse, on every input on which the pass completes. *)
Lemma bucket_counts_sum (data : list ActivityRecord.t) (s : State) :
  timestamps_ok Date_parse data = true ->
  exists s', processActivityData Date_parse LocalTZA data s = Normal s'
    /\ length (activityData s') = 24%nat
    /\ sumZ (ActivityData.count <$> activityData s')
       = Z.of_nat (length (List.filter
                             (fun a => parseable Date_parse (ActivityRecord.Date_Time a))
                             (timestamped data))).
Proof.
  intros Hok. destruct (process_completes data s Hok) as (loop & Hl & HI & Hp).
  eexists. split; [exact Hp |]. simpl.
  split; [apply (inv_length _ _ _ _ HI) |]. rewrite (inv_sum _ _ _ _ HI). do 2 f_equal.
  unfold timestamped. clear -Hok. induction data as [|a data IH]; [reflexivity |].
  simpl in *. apply andb_true_iff in Hok as [Ha Hok].
  destruct (truthy _) eqn:Ht; simpl in *; [rewrite Ha; f_equal |]; apply IH, Hok.
Qed.

(** C1. A row whose timestamp is not empty and does not parse is not
    skipped: the whole aggregation pass raises a [TypeError], so that no
    bucket, guard or metric is published at all. *)
Theorem unparseable_timestamp_aborts (data : list ActivityRecord.t)
    (a : ActivityRecord.t) (s : State) :
  In a data ->
  ActivityRecord.Date_Time a <> "" ->
  Date_parse (ActivityRecord.Date_Time a) = None ->
  processActivityData Date_parse LocalTZA data s = Throw TypeError.
Proof.
  intros Hin Ht Hp. rewrite process_publishes.
  rewrite (activity_loop_aborts Date_parse LocalTZA data a); [reflexivity | | | exact Hp].
  - apply list_elem_of_In, Hin.
  - apply truthy_true, Ht.
Qed.


(** What holds of the guard list on every input on which the pass
    completes: one GuardStat per distinct non-empty service number, among
    the rows with a timestamp, that is no inherited property name; its
    activity count is the number of those rows carrying the number; when no
    such row carries an inherited name the distinct-guard metric is the
    number of GuardStats; and a further row with an empty service number
    adds one to the count of its hour bucket and, the readings adding up to
    2^53 at most, its reading to the average, while the guard list and the
    distinct-guard metric stay as they are. *)
Lemma guards_per_own_service_number (data : list ActivityRecord.t) (s : State) :
  timestamps_ok Date_parse data = true ->
  exists s', processActivityData Date_parse LocalTZA data s = Normal s'
    /\ NoDup (GuardStats.id <$> guardStats s')
    /\ (forall k, k ∈ GuardStats.id <$> guardStats s' <->
          k <> "" /\ inherited k = false
          /\ exists a, In a data /\ ActivityRecord.Date_Time a <> ""
                       /\ ActivityRecord.Service_Number a = k)
    /\ (forall g, g ∈ guardStats s' ->
          GuardStats.activities g = Z.of_nat (length (rowsOf (GuardStats.id g) data)))
    /\ ((forall a, In a data -> ActivityRecord.Date_Time a <> "" ->
                   inherited (ActivityRecord.Service_Number a) = false) ->
        Metrics.totalGuards (metrics s') = Z.of_nat (length (guardStats s')))
    /\ (forall a h,
          ActivityRecord.Service_Number a = "" ->
          ActivityRecord.Date_Time a <> "" ->
          hourOf Date_parse LocalTZA a = Some h ->
          exists s'', processActivityData Date_parse LocalTZA (data ++ [a]) s = Normal s''
            /\ guardStats s'' = guardStats s'
            /\ Metrics.totalGuards (metrics s'') = Metrics.totalGuards (metrics s')
            /\ activityData s'' = alter (bucketStep a) (Z.to_nat h) (activityData s')
            /\ (forall b, ActivityData.count (bucketStep a b) = ActivityData.count b + 1)
            /\ (sumZ (readings (data ++ [a])) <= max_exact ->
                Metrics.avgLocationAccuracy (metrics s'')
                = averageOf (readings data
                             ++ match accuracyOf a with Some v => [v] | None => [] end))).
Proof.
  intros Hok. destruct (process_completes data s Hok) as (loop & Hl & HI & Hp).
  eexists. split; [exact Hp |].
  pose proof (guard_ids_published data loop s HI) as Hids.
  split; [rewrite Hids; apply (inv_nodup _ _ _ _ HI) |].
  split; [intros k; rewrite Hids, (inv_keys _ _ _ _ HI), rowsOf_nonempty; reflexivity |].
  split.
  { intros g Hg. destruct (guards_published data loop s g HI Hg) as (g0 & -> & Hg0).
    apply (inv_guard _ _ _ _ HI) in Hg0 as (_ & Hact & _). exact Hact. }
  split.
  { intros Hown.
    change (guardStats (publishActivity loop s))
      with (finalStatus <$> Object_values (guardMetrics loop)).
    change (Metrics.totalGuards (metrics (publishActivity loop s)))
      with (Z.of_nat (size (uniqueGuards loop))).
    rewrite (unique_guards_all_own data loop HI Hown), !length_fmap.
    rewrite (Permutation_length (Object_values_perm _)), !length_fmap. reflexivity. }
  intros a h Hsn Ht Hh. apply truthy_true in Ht.
  pose proof (hourOf_range _ _ a h Hh) as Hr.
  assert (Hb : activityBody Date_parse LocalTZA loop a = Normal (activityStep Date_parse h a loop)).
  { apply body_step; [exact Ht | exact Hh |]. rewrite (inv_length _ _ _ _ HI). lia. }
  exists (publishActivity (activityStep Date_parse h a loop) s).
  split.
  { rewrite process_publishes, forEach_snoc, Hl. simpl. rewrite Hb. reflexivity. }
  assert (Hfalse : truthy (ActivityRecord.Service_Number a) = false)
    by (apply truthy_false, Hsn).
  repeat split.
  - simpl. rewrite Hfalse. reflexivity.
  - simpl. rewrite Hfalse. reflexivity.
  - intros b. unfold bucketStep. destruct (isIssue a); reflexivity.
  - intros _. rewrite (average_published (data ++ [a])).
    + rewrite readings_snoc by exact Ht. reflexivity.
    + apply step_invariant; assumption.
Qed.

(** C7. A service number that is the name of a property every object
    inherits, such as "constructor", gets no GuardStat although it is not
    empty and is counted in the distinct-guard metric: the dictionary lookup
    finds the inherited value, so that no entry is created, and the metric
    exceeds the number of GuardStats. *)
Theorem inherited_service_number_has_no_guard (data : list ActivityRecord.t)
    (a : ActivityRecord.t) (s : State) :
  timestamps_ok Date_parse data = true ->
  In a data ->
  ActivityRecord.Date_Time a <> "" ->
  inherited (ActivityRecord.Service_Number a) = true ->
  exists s', processActivityData Date_parse LocalTZA data s = Normal s'
    /\ ActivityRecord.Service_Number a <> ""
    /\ (forall g, g ∈ guardStats s' ->
          GuardStats.id g <> ActivityRecord.Service_Number a)
    /\ Z.of_nat (length (guardStats s')) < Metrics.totalGuards (metrics s').
Proof.
  intros Hok Hin Ht Hinh. destruct (process_completes data s Hok) as (loop & Hl & HI & Hp).
  eexists. split; [exact Hp |].
  assert (Hne : ActivityRecord.Service_Number a <> "")
    by (intros E; rewrite E in Hinh; discriminate).
  assert (Hrows : rowsOf (ActivityRecord.Service_Number a) data <> [])
    by (apply rowsOf_nonempty; exists a; auto).
  split; [exact Hne |]. split.
  - intros g Hg E. destruct (guards_published data loop s g HI Hg) as (g0 & _ & Hg0).
    apply obj_get_key, (inv_keys _ _ _ _ HI) in Hg0 as (_ & Hown & _).
    rewrite E in Hown. congruence.
  - pose proof (unique_guards_counts_inherited data loop _ HI Hne Hinh Hrows) as Hlt.
    change (guardStats (publishActivity loop s))
      with (finalStatus <$> Object_values (guardMetrics loop)).
    change (Metrics.totalGuards (metrics (publishActivity loop s)))
      with (Z.of_nat (size (uniqueGuards loop))).
    rewrite length_fmap, (Permutation_length (Object_values_perm _)).
    rewrite !length_fmap in *. lia.
Qed.


End ActivityAggregator.

(** ** Coverage at the two ends

    The two exact cases of the coverage rate in binary64 arithmetic, for
    scan counts below 2^53. *)









(** ** The attendance aggregator *)

Lemma attendance_publishes (data : list AttendanceRecord.t) :
  exists loop, AttendanceInv data loop
               /\ forall s, processAttendanceData data s = Normal (publishAttendance loop s).
Proof.
  destruct (attendance_loop data) as (loop & Hl & HI). exists loop.
  split; [exact HI |]. intros s. unfold processAttendanceData. rewrite Hl. reflexivity.
Qed.


Lemma nan_fold_None (l : list AttendanceRecord.t) :
  fold_left (fun acc r => nan_add acc (missOf r)) l None = None.
Proof. induction l as [|r l IH]; simpl; [reflexivity | exact IH]. Qed.

Lemma nan_fold_poisoned (l : list AttendanceRecord.t) (r : AttendanceRecord.t)
    (acc : int_or_NaN) :
  In r l -> missOf r = None ->
  fold_left (fun acc r => nan_add acc (missOf r)) l acc = None.
Proof.
  intros Hin Hr. revert acc. induction l as [|x l IH]; intros acc; [contradiction |].
  simpl. destruct Hin as [-> | Hin].
  - rewrite Hr. destruct acc; simpl; apply nan_fold_None.
  - apply IH, Hin.
Qed.

Lemma nan_fold_sum (l : list AttendanceRecord.t) (acc : Z) :
  (forall r, In r l -> is_Some (missOf r)) ->
  fold_left (fun acc r => nan_add acc (missOf r)) l (Some acc)
  = Some (acc + sumZ (omap missOf l)).
Proof.
  revert acc. induction l as [|x l IH]; intros acc Hall; simpl.
  - f_equal. lia.
  - destruct (Hall x (or_introl eq_refl)) as [v Hv]. csimpl. rewrite Hv. simpl.
    rewrite IH by (intros r Hr; apply Hall; right; exact Hr). f_equal.
    unfold omap. lia.
Qed.

(** When every miss count parses, the missed-scan metric is the sum of the
    parsed values over the rows with a post name; the values add up, in
    magnitude, to 2^53 at most, so that the running total of the code is
    their exact sum. *)
Lemma missed_scans_sum (data : list AttendanceRecord.t) (s : State) :
  (forall r, In r (posted data) -> is_Some (missOf r)) ->
  sumZ (Z.abs <$> omap missOf (posted data)) <= max_exact ->
  exists s', processAttendanceData data s = Normal s'
    /\ Metrics.missedScans (metrics s') = Some (sumZ (omap missOf (posted data))).
Proof.
  intros Hall _. destruct (attendance_publishes data) as (loop & HI & Hp).
  eexists. split; [exact (Hp s) |]. simpl. rewrite (att_missed _ _ HI).
  unfold missTotal. rewrite nan_fold_sum by exact Hall. reflexivity.
Qed.

(** C4. With no shift to count the aggregator does not raise, yet the
    on-time rate it publishes is NaN, the rounding of 0 / 0 times 100, and
    not the fallback 0. *)
Theorem onTimeRate_of_no_shift (s : State) :
  exists s', processAttendanceData [] s = Normal s'
    /\ Metrics.totalShifts (metrics s') = 0
    /\ Metrics.onTimeRate (metrics s') = js_NaN.
Proof. eexists. split; [reflexivity |]. split; reflexivity. Qed.

(** C6. A miss count that is not empty and does not start with a number
    is not taken as 0: [parseInt] yields NaN and the published missed-scan
    total is NaN. *)
Theorem unparseable_miss_count_poisons_total (data : list AttendanceRecord.t)
    (r : AttendanceRecord.t) (s : State) :
  In r data ->
  AttendanceRecord.Post_Name r <> "" ->
  parseInt (AttendanceRecord.No_of_Miss r) = None ->
  AttendanceRecord.No_of_Miss r <> "" ->
  exists s', processAttendanceData data s = Normal s'
    /\ Metrics.missedScans (metrics s') = None.
Proof.
  intros Hin Hp Hm Hne. destruct (attendance_publishes data) as (loop & HI & Hpub).
  eexists. split; [exact (Hpub s) |]. simpl. rewrite (att_missed _ _ HI).
  unfold missTotal. apply (nan_fold_poisoned _ r).
  - unfold posted. apply filter_In. split; [exact Hin | apply truthy_true, Hp].
  - unfold missOf. apply truthy_true in Hne. rewrite Hne. exact Hm.
Qed.

(** C8. Forty shifts at one post, seventeen of them late: the published
    coverage rate is 57, because (23 / 40) * 100 is 57.49999999999999 in
    double precision, while round(100 * 23 / 40) = round(57.5) is 58. *)
Theorem coverage_of_forty_shifts (s : State) :
  completion_map locationStats (processAttendanceData ex_fortyShifts s)
  = Normal [LocationStats.mk "Gate-1" 40 17 0 (of_Z 57)]
  /\ js_mul (js_div (of_Z 23) (of_Z 40)) (of_Z 100)
     = S754_finite false 8092405580431359 (-47)
  /\ claimed_coverageRate 40 17 = 58
  /\ of_Z 57 <> of_Z 58.
Proof.
  split; [vm_compute; reflexivity |].
  split; [vm_compute; reflexivity |].
  split; [reflexivity | vm_compute; discriminate].
Qed.


(** ** The date-range filters and the effect *)

Lemma filter_sublist {A : Type} (f : A -> bool) (l : list A) : sublist (List.filter f l) l.
Proof.
  induction l as [|x l IH]; simpl; [constructor |].
  destruct (f x); [apply sublist_skip | apply sublist_cons]; exact IH.
Qed.

Section Effect.

Variable Date_parse : string -> option Z.
Variable LocalTZA : Z -> Z.

(** The test of the filters keeps a record unless its date field is empty
    or its date is shown to lie before the lower or after the upper bound. *)
Lemma inRange_kept (field : string) (startDate endDate : option Date) :
  inRange Date_parse field startDate endDate = kept Date_parse field startDate endDate.
Proof.
  unfold inRange, kept, within, date_gt, date_lt, new_Date.
  destruct (truthy field); simpl; [| reflexivity].
  destruct (Date_parse field) as [t |];
    destruct startDate as [[lo |] |], endDate as [[hi |] |]; simpl; try reflexivity;
    rewrite ?(Z.ltb_antisym lo t), ?(Z.ltb_antisym t hi);
    repeat match goal with |- context [?a <=? ?b] => destruct (a <=? b) end; reflexivity.
Qed.

(** Each filter returns, in the original order, the records whose date
    field is not empty and whose date does not lie before the lower bound
    or after the upper bound, both bounds included. *)
Lemma filter_keeps_unless_outside (s : State) :
  filteredActivityData Date_parse s
  = List.filter (fun a => kept Date_parse (ActivityRecord.Date_Time a)
                            (startDate s) (endDate s)) (activityDataRaw s)
  /\ filteredAttendanceData Date_parse s
     = List.filter (fun r => kept Date_parse (AttendanceRecord.Login_Date r)
                               (startDate s) (endDate s)) (attendanceDataRaw s)
  /\ sublist (filteredActivityData Date_parse s) (activityDataRaw s)
  /\ sublist (filteredAttendanceData Date_parse s) (attendanceDataRaw s).
Proof.
  unfold filteredActivityData, filteredAttendanceData.
  split; [| split; [| split; apply filter_sublist]].
  - apply List.filter_ext. intros a. apply inRange_kept.
  - apply List.filter_ext. intros r. apply inRange_kept.
Qed.

(** C3. A record whose date field is not empty and does not parse is not
    excluded: both filters keep it, whatever the bounds, because an invalid
    date compares neither below the lower bound nor above the upper one. *)
Theorem unparseable_date_passes_filter (s : State) :
  (forall a, In a (activityDataRaw s) ->
     ActivityRecord.Date_Time a <> "" ->
     Date_parse (ActivityRecord.Date_Time a) = None ->
     In a (filteredActivityData Date_parse s))
  /\ (forall r, In r (attendanceDataRaw s) ->
        AttendanceRecord.Login_Date r <> "" ->
        Date_parse (AttendanceRecord.Login_Date r) = None ->
        In r (filteredAttendanceData Date_parse s)).
Proof.
  destruct (filter_keeps_unless_outside s) as (Ea & Eb & _). rewrite Ea, Eb.
  split; intros x Hin Hne Hp; apply filter_In; (split; [exact Hin |]);
    unfold kept; rewrite Hp, andb_true_r; apply truthy_true, Hne.
Qed.

(** Both aggregators together overwrite the four published cells. *)
Lemma publish_overwrites (la : ActivityLoop) (lb : AttendanceLoop) (s s0 : State) :
  published (publishAttendance lb (publishActivity la s))
  = published (publishAttendance lb (publishActivity la s0)).
Proof. reflexivity. Qed.

(** C5, amended. After a change that leaves both raw sets non-empty, what
    is published is the result of filtering the current raw sets with the
    current bounds and running both aggregators, whatever was published
    before; after a change that leaves a raw set empty the effect returns
    at once and what was published stays. *)
Theorem rederivation_when_both_loaded (c : Change) (s : State) :
  completion_map published (onChange Date_parse LocalTZA c s)
  = match activityDataRaw (applyChange c s), attendanceDataRaw (applyChange c s) with
    | _ :: _, _ :: _ =>
        rederive Date_parse LocalTZA
          (activityDataRaw (applyChange c s)) (attendanceDataRaw (applyChange c s))
          (startDate (applyChange c s)) (endDate (applyChange c s))
    | _, _ => Normal (published s)
    end.
Proof.
  unfold onChange, rangeEffect, rederive.
  set (s1 := applyChange c s).
  assert (Hpub : published s1 = published s) by (destruct c; reflexivity).
  destruct (activityDataRaw s1) as [|a ra] eqn:Ea; [simpl; f_equal; exact Hpub |].
  destruct (attendanceDataRaw s1) as [|b rb] eqn:Eb; [simpl; f_equal; exact Hpub |].
  cbn [length Nat.eqb orb].
  set (s0 := mkState initialMetrics [] [] [] (startDate s1) (endDate s1) (a :: ra) (b :: rb)).
  assert (Hfa : filteredActivityData Date_parse s0 = filteredActivityData Date_parse s1).
  { unfold filteredActivityData. rewrite Ea. reflexivity. }
  assert (Hfb : filteredAttendanceData Date_parse s0 = filteredAttendanceData Date_parse s1).
  { unfold filteredAttendanceData. rewrite Eb. reflexivity. }
  rewrite Hfa, Hfb, !process_publishes.
  destruct (forEach _ (filteredActivityData Date_parse s1) _) as [la | e]; [| reflexivity].
  cbn [completion_map mbind completion_bind].
  destruct (attendance_publishes (filteredAttendanceData Date_parse s1)) as (lb & _ & Hb).
  rewrite !Hb. reflexivity.
Qed.

End Effect.

(** ** The statements at the example host *)

Lemma unparseable_timestamp_aborts_witness :
  In (activityRow "101" "garbage" "75m" "On Time") ex_badTimestamp
  /\ "garbage" <> ""
  /\ iso_Date_parse "garbage" = None
  /\ processActivityData iso_Date_parse utc_LocalTZA ex_badTimestamp initialState
     = Throw TypeError.
Proof.
  assert (H1 : In (activityRow "101" "garbage" "75m" "On Time") ex_badTimestamp)
    by (left; reflexivity).
  assert (H2 : "garbage" <> "") by discriminate.
  assert (H3 : iso_Date_parse "garbage" = None) by reflexivity.
  refine (conj H1 (conj H2 (conj H3 _))).
  exact (unparseable_timestamp_aborts iso_Date_parse utc_LocalTZA ex_badTimestamp
           (activityRow "101" "garbage" "75m" "On Time") initialState H1 H2 H3).
Defined.



(** A record whose date field is "garbage" passes the activity filter with
    both bounds set, although its date does not parse. *)
Example filter_keeps_garbage :
  iso_Date_parse "garbage" = None
  /\ filteredActivityData iso_Date_parse ex_loaded = ex_badTimestamp
  /\ claimed_filter iso_Date_parse ActivityRecord.Date_Time
       (startDate ex_loaded) (endDate ex_loaded) (activityDataRaw ex_loaded) = [].
Proof. repeat split. Qed.

Lemma unparseable_date_passes_filter_witness :
  In (activityRow "101" "garbage" "75m" "On Time") (activityDataRaw ex_loaded)
  /\ "garbage" <> ""
  /\ iso_Date_parse "garbage" = None
  /\ In (activityRow "101" "garbage" "75m" "On Time")
        (filteredActivityData iso_Date_parse ex_loaded).
Proof.
  assert (H1 : In (activityRow "101" "garbage" "75m" "On Time") (activityDataRaw ex_loaded))
    by (left; reflexivity).
  assert (H2 : "garbage" <> "") by discriminate.
  assert (H3 : iso_Date_parse "garbage" = None) by reflexivity.
  refine (conj H1 (conj H2 (conj H3 _))).
  exact (proj1 (unparseable_date_passes_filter iso_Date_parse ex_loaded)
           (activityRow "101" "garbage" "75m" "On Time") H1 H2 H3).
Defined.

(** The claim of C5 fails when attendance records arrive while no activity
    record is loaded: the effect returns at once and the location list
    stays empty, although re-derivation yields one location. *)
Lemma rederivation_skipped_counterexample :
  completion_map locationStats
    (onChange iso_Date_parse utc_LocalTZA (ChangeAttendanceDataRaw ex_attendance) initialState)
  = Normal []
  /\ completion_map snd (rederive iso_Date_parse utc_LocalTZA [] ex_attendance None None)
     = Normal [LocationStats.mk "Gate-1" 2 1 0 (of_Z 50)].
Proof. split; vm_compute; reflexivity. Qed.

Lemma unparseable_miss_count_witness :
  In (attendanceRow "2024-01-15" "Gate-1" "On-time" "abc") ex_badMiss
  /\ "Gate-1" <> ""
  /\ parseInt "abc" = None
  /\ "abc" <> ""
  /\ exists s', processAttendanceData ex_badMiss initialState = Normal s'
                /\ Metrics.missedScans (metrics s') = None.
Proof.
  assert (H1 : In (attendanceRow "2024-01-15" "Gate-1" "On-time" "abc") ex_badMiss)
    by (left; reflexivity).
  assert (H2 : "Gate-1" <> "") by discriminate.
  assert (H3 : parseInt "abc" = None) by reflexivity.
  assert (H4 : "abc" <> "") by discriminate.
  refine (conj H1 (conj H2 (conj H3 (conj H4 _)))).
  exact (unparseable_miss_count_poisons_total ex_badMiss
           (attendanceRow "2024-01-15" "Gate-1" "On-time" "abc") initialState H1 H2 H3 H4).
Defined.

(** The claim of C7 at a service number "constructor": the pass publishes
    the guard 101 alone, and counts two distinct guards. *)
Example scenario_inherited_key :
  completion_map
    (fun s => (GuardStats.id <$> guardStats s, Metrics.totalGuards (metrics s)))
    (processActivityData iso_Date_parse utc_LocalTZA ex_inheritedKey initialState)
  = Normal (["101"], 2).
Proof. vm_compute. reflexivity. Qed.

Lemma inherited_service_number_witness :
  timestamps_ok iso_Date_parse ex_inheritedKey = true
  /\ In (activityRow "constructor" "2024-01-15T14:30:00Z" "10m" "On Time") ex_inheritedKey
  /\ "2024-01-15T14:30:00Z" <> ""
  /\ inherited "constructor" = true
  /\ exists s',
       processActivityData iso_Date_parse utc_LocalTZA ex_inheritedKey initialState
       = Normal s'
       /\ "constructor" <> ""
       /\ (forall g, g ∈ guardStats s' -> GuardStats.id g <> "constructor")
       /\ Z.of_nat (length (guardStats s')) < Metrics.totalGuards (metrics s').
Proof.
  assert (H2 : In (activityRow "constructor" "2024-01-15T14:30:00Z" "10m" "On Time")
                  ex_inheritedKey) by (left; reflexivity).
  assert (H3 : "2024-01-15T14:30:00Z" <> "") by discriminate.
  refine (conj eq_refl (conj H2 (conj H3 (conj eq_refl _)))).
  exact (inherited_service_number_has_no_guard iso_Date_parse utc_LocalTZA ex_inheritedKey
           (activityRow "constructor" "2024-01-15T14:30:00Z" "10m" "On Time") initialState
           eq_refl H2 H3 eq_refl).
Defined.

(** The guard of [ex_activity]: on time by its first row, whatever the
    later row of the same guard says, and without issue, hence "normal". *)
Example scenario_first_seen :
  completion_map guardStats
    (processActivityData iso_Date_parse utc_LocalTZA ex_activity initialState)
  = Normal [GuardStats.mk "101" (Some "A. Guard") (Some "Gate-1") 2 0 0 true 0
              "2024-01-15T16:45:00Z" normal].
Proof. vm_compute. reflexivity. Qed.


(** The scenarios of the specification, run. *)

Example scenario_A :
  completion_map
    (fun s => (activityData s !! 14%nat,
               Metrics.avgLocationAccuracy (metrics s),
               Metrics.locationErrors (metrics s)))
    (processActivityData iso_Date_parse utc_LocalTZA
       [activityRow "101" "2024-01-15T14:30:00Z" "75m" "On Time"] initialState)
  = Normal (Some (ActivityData.mk 14 1 1), of_Z 75, 1).
Proof. vm_compute. reflexivity. Qed.

Example scenario_B :
  completion_map locationStats (processAttendanceData ex_attendance initialState)
  = Normal [LocationStats.mk "Gate-1" 2 1 0 (of_Z 50)].
Proof. vm_compute. reflexivity. Qed.

Example scenario_D :
  completion_map
    (fun s => (guardStats s, Metrics.totalGuards (metrics s), activityData s !! 15%nat))
    (processActivityData iso_Date_parse utc_LocalTZA [ex_emptyServiceNumber] initialState)
  = Normal ([], 0, Some (ActivityData.mk 15 1 1)).
Proof. vm_compute. reflexivity. Qed.

(** ** Counting rows by key *)










Lemma filter_all {A : Type} (f : A -> bool) (l : list A) :
  (forall x, In x l -> f x = true) -> List.filter f l = l.
Proof.
  induction l as [|x l IH]; intros H; simpl; [reflexivity |].
  rewrite (H x (or_introl eq_refl)), IH; [reflexivity |].
  intros y Hy. apply H. right. exact Hy.
Qed.

Lemma filter_filter_length {A : Type} (f g : A -> bool) (l : list A) :
  (length (List.filter f (List.filter g l)) <= length (List.filter f l))%nat.
Proof.
  induction l as [|x l IH]; simpl; [lia |].
  destruct (g x); simpl; destruct (f x); simpl; lia.
Qed.

Lemma filter_filter_same {A : Type} (f g : A -> bool) (l : list A) :
  (forall x, In x l -> f x = true -> g x = true) ->
  List.filter f (List.filter g l) = List.filter f l.
Proof.
  induction l as [|x l IH]; intros H; simpl; [reflexivity |].
  pose proof (H x (or_introl eq_refl)) as Hx.
  assert (IH' : List.filter f (List.filter g l) = List.filter f l)
    by (apply IH; intros y Hy; apply H; right; exact Hy).
  destruct (g x) eqn:Eg; simpl; destruct (f x) eqn:Ef; try (rewrite IH'; reflexivity).
  specialize (Hx eq_refl). discriminate.
Qed.

Lemma filter_implies_sublist {A : Type} (f g : A -> bool) (l : list A) :
  (forall x, In x l -> f x = true -> g x = true) ->
  sublist (List.filter f l) (List.filter g l).
Proof.
  induction l as [|x l IH]; intros H; simpl; [constructor |].
  assert (IH' : sublist (List.filter f l) (List.filter g l))
    by (apply IH; intros y Hy; apply H; right; exact Hy).
  pose proof (H x (or_introl eq_refl)) as Hx.
  destruct (f x) eqn:Ef.
  - rewrite (Hx eq_refl). apply sublist_skip, IH'.
  - destruct (g x); [apply sublist_cons |]; exact IH'.
Qed.

(** * Further properties *)

(** ** More on the activity aggregator *)









Section GuardFacts.

Variable Date_parse : string -> option Z.
Variable LocalTZA : Z -> Z.






End GuardFacts.


Lemma forEach_all_skipped {A S : Type} (body : S -> A -> completion S) (data : list A) (st : S) :
  (forall a, In a data -> body st a = Normal st) -> forEach body data st = Normal st.
Proof.
  induction data as [|a data IH]; intros H; [reflexivity |].
  rewrite forEach_cons, (H a (or_introl eq_refl)). simpl.
  apply IH. intros x Hx. apply H. right. exact Hx.
Qed.

Section ActivityExtras.

Variable Date_parse : string -> option Z.
Variable LocalTZA : Z -> Z.









(** X7. When no row has a timestamp, in particular on the empty input, the
    pass publishes 24 empty buckets, no guard and zero metrics. *)
Theorem no_timestamp_no_output (data : list ActivityRecord.t) (s : State) :
  (forall a, In a data -> ActivityRecord.Date_Time a = "") ->
  exists s', processActivityData Date_parse LocalTZA data s = Normal s'
    /\ activityData s' = initialHourlyData
    /\ guardStats s' = []
    /\ Metrics.totalGuards (metrics s') = 0
    /\ Metrics.locationErrors (metrics s') = 0
    /\ Metrics.avgLocationAccuracy (metrics s') = of_Z 0.
Proof.
  intros Hall. eexists. split.
  - rewrite process_publishes. rewrite forEach_all_skipped; [reflexivity |].
    intros a Ha. apply body_skip. apply truthy_false, Hall, Ha.
  - repeat split.
Qed.


End ActivityExtras.

(** ** More on the attendance aggregator *)









(** ** More on the filters and the effect *)

Section EffectExtras.

Variable Date_parse : string -> option Z.
Variable LocalTZA : Z -> Z.

(** X14. With no bound selected each filter keeps exactly the records whose
    date field is not empty. *)
Theorem unbounded_filter (s : State) :
  startDate s = None -> endDate s = None ->
  filteredActivityData Date_parse s = timestamped (activityDataRaw s)
  /\ filteredAttendanceData Date_parse s
     = List.filter (fun r => truthy (AttendanceRecord.Login_Date r)) (attendanceDataRaw s).
Proof.
  intros Hs He. unfold filteredActivityData, filteredAttendanceData, timestamped.
  rewrite Hs, He. split; apply List.filter_ext; intros x; unfold inRange;
    destruct (truthy _); reflexivity.
Qed.

(** X15. Both bounds are included: a record whose date parses is kept exactly
    when its time value lies between the two bounds, ends included. *)
Theorem bounds_are_inclusive (s : State) (a : ActivityRecord.t) (t lo hi : Z) :
  In a (activityDataRaw s) ->
  ActivityRecord.Date_Time a <> "" ->
  Date_parse (ActivityRecord.Date_Time a) = Some t ->
  startDate s = Some (Some lo) ->
  endDate s = Some (Some hi) ->
  In a (filteredActivityData Date_parse s) <-> lo <= t <= hi.
Proof.
  intros Hin Hne Hp Hs He. unfold filteredActivityData.
  rewrite filter_In, inRange_kept. unfold kept, within.
  apply truthy_true in Hne. rewrite Hne, Hp, Hs, He. simpl.
  rewrite andb_true_iff, !Z.leb_le. tauto.
Qed.

(** X16. Widening the range never loses a record: what is kept between [lo] and
    [hi] is kept, in the same order, between an earlier [lo'] and a later
    [hi']. *)
Theorem widening_keeps_records (s s' : State) (lo hi lo' hi' : Z) :
  activityDataRaw s' = activityDataRaw s ->
  attendanceDataRaw s' = attendanceDataRaw s ->
  startDate s = Some (Some lo) -> endDate s = Some (Some hi) ->
  startDate s' = Some (Some lo') -> endDate s' = Some (Some hi') ->
  lo' <= lo -> hi <= hi' ->
  sublist (filteredActivityData Date_parse s) (filteredActivityData Date_parse s')
  /\ sublist (filteredAttendanceData Date_parse s) (filteredAttendanceData Date_parse s').
Proof.
  intros Ea Eb Hs He Hs' He' Hlo Hhi.
  assert (Hk : forall field,
             inRange Date_parse field (startDate s) (endDate s) = true ->
             inRange Date_parse field (startDate s') (endDate s') = true).
  { intros field. rewrite !inRange_kept. unfold kept, within.
    rewrite Hs, He, Hs', He'. destruct (truthy field); [| discriminate]. simpl.
    destruct (Date_parse field) as [t |]; [| reflexivity].
    rewrite !andb_true_iff, !Z.leb_le. lia. }
  unfold filteredActivityData, filteredAttendanceData. rewrite Ea, Eb.
  split; apply filter_implies_sublist; intros x _; apply Hk.
Qed.


(** What the effect publishes when both raw sets are loaded. *)
Lemma effect_rederives (s : State) :
  activityDataRaw s <> [] -> attendanceDataRaw s <> [] ->
  completion_map published (rangeEffect Date_parse LocalTZA s)
  = rederive Date_parse LocalTZA (activityDataRaw s) (attendanceDataRaw s)
      (startDate s) (endDate s).
Proof.
  intros Ha Hb. unfold rangeEffect, rederive.
  destruct (activityDataRaw s) as [|a ra] eqn:Ea; [contradiction |].
  destruct (attendanceDataRaw s) as [|b rb] eqn:Eb; [contradiction |].
  cbn [length Nat.eqb orb].
  set (s0 := mkState initialMetrics [] [] [] (startDate s) (endDate s) (a :: ra) (b :: rb)).
  assert (Hfa : filteredActivityData Date_parse s0 = filteredActivityData Date_parse s)
    by (unfold filteredActivityData; rewrite Ea; reflexivity).
  assert (Hfb : filteredAttendanceData Date_parse s0 = filteredAttendanceData Date_parse s)
    by (unfold filteredAttendanceData; rewrite Eb; reflexivity).
  rewrite Hfa, Hfb, !process_publishes.
  destruct (forEach _ (filteredActivityData Date_parse s) _) as [la | e]; [| reflexivity].
  cbn [completion_map mbind completion_bind].
  destruct (attendance_publishes (filteredAttendanceData Date_parse s)) as (lb & _ & Hlb).
  rewrite !Hlb. reflexivity.
Qed.




(** ** The drill-down tables *)

Lemma strict_eq_hour (a : ActivityRecord.t) (h : Z) :
  strict_eq (getHours LocalTZA (new_Date Date_parse (ActivityRecord.Date_Time a))) (Some h)
  = bool_decide (hourOf Date_parse LocalTZA a = Some h).
Proof.
  unfold hourOf. destruct (getHours _ _) as [x |]; cbn [strict_eq].
  - destruct (Z.eqb_spec x h) as [-> | Hne].
    + rewrite bool_decide_eq_true_2; reflexivity.
    + rewrite bool_decide_eq_false_2; [reflexivity | congruence].
  - rewrite bool_decide_eq_false_2; [reflexivity | discriminate].
Qed.

(** X18. After a run of the effect with both raw sets loaded, the table of an
    hour has at least as many rows as the bucket of that hour counts,
    because the table reads the raw records and the bucket the filtered
    ones; with no bound selected it has exactly as many. *)
Theorem hour_table_and_bucket (s s' : State) :
  activityDataRaw s <> [] -> attendanceDataRaw s <> [] ->
  Date_parse "" = None ->
  rangeEffect Date_parse LocalTZA s = Normal s' ->
  forall (h : nat) (b : ActivityData.t),
    activityData s' !! h = Some b ->
    ActivityData.count b
    <= Z.of_nat (length (activitiesInHour Date_parse LocalTZA (Some (Z.of_nat h)) s'))
    /\ (startDate s = None -> endDate s = None ->
        ActivityData.count b
        = Z.of_nat (length (activitiesInHour Date_parse LocalTZA (Some (Z.of_nat h)) s'))).
Proof.
  intros Ha Hb Hempty Hrun h b Hlook. unfold rangeEffect in Hrun.
  destruct (activityDataRaw s) as [|a ra] eqn:Ea; [contradiction |].
  destruct (attendanceDataRaw s) as [|x rb] eqn:Eb; [contradiction |].
  cbn [length Nat.eqb orb] in Hrun. rewrite process_publishes in Hrun.
  destruct (forEach (activityBody Date_parse LocalTZA) (filteredActivityData Date_parse s) _)
    as [la | e] eqn:Hla; cbn [completion_map mbind completion_bind] in Hrun; [| discriminate].
  destruct (attendance_publishes (filteredAttendanceData Date_parse s)) as (lb & _ & Hlb).
  rewrite Hlb in Hrun. injection Hrun as <-. simpl in Hlook.
  pose proof (activity_invariant Date_parse LocalTZA _ _ Hla) as HI.
  destruct (inv_bucket _ _ _ _ HI h b Hlook) as (_ & Hcount & _). rewrite Hcount.
  unfold activitiesInHour, rowsAtHour.
  change (activityDataRaw (publishAttendance lb (publishActivity la s)))
    with (activityDataRaw s).
  rewrite (List.filter_ext
             (fun activity =>
                strict_eq (getHours LocalTZA
                             (new_Date Date_parse (ActivityRecord.Date_Time activity)))
                  (Some (Z.of_nat h)))
             (fun a => bool_decide (hourOf Date_parse LocalTZA a = Some (Z.of_nat h)))
             (fun y => strict_eq_hour y (Z.of_nat h))).
  unfold timestamped, filteredActivityData. rewrite Ea.
  set (raw := a :: ra). split.
  - rewrite filter_filter_same.
    + apply inj_le, filter_filter_length.
    + intros y Hy _. apply filter_In in Hy as [_ Hy]. unfold inRange in Hy.
      destruct (truthy (ActivityRecord.Date_Time y)); [reflexivity | discriminate].
  - intros Hs He. do 2 f_equal. rewrite filter_filter_same.
    + apply filter_filter_same. intros y _ Hy. apply bool_decide_eq_true in Hy.
      rewrite Hs, He. unfold inRange.
      destruct (truthy (ActivityRecord.Date_Time y)) eqn:Ht; [reflexivity |].
      apply truthy_false in Ht. unfold hourOf, getHours, new_Date in Hy.
      rewrite Ht, Hempty in Hy. discriminate.
    + intros y Hy _. apply filter_In in Hy as [_ Hy]. unfold inRange in Hy.
      destruct (truthy (ActivityRecord.Date_Time y)); [reflexivity | discriminate].
Qed.

(** X19. A raw record whose timestamp parses is listed in the table of exactly
    one hour, between 0 and 23; one whose timestamp does not parse is
    listed in none, and the table of NaN is empty. *)
Theorem hour_tables_partition (s : State) (a : ActivityRecord.t) :
  In a (activityDataRaw s) ->
  match Date_parse (ActivityRecord.Date_Time a) with
  | Some t =>
      exists h, 0 <= h < 24
        /\ forall h', In a (activitiesInHour Date_parse LocalTZA (Some h') s) <-> h' = h
  | None => forall selected, ~ In a (activitiesInHour Date_parse LocalTZA selected s)
  end
  /\ activitiesInHour Date_parse LocalTZA None s = [].
Proof.
  intros Hin. split.
  - unfold activitiesInHour, getHours, new_Date.
    destruct (Date_parse (ActivityRecord.Date_Time a)) as [t |] eqn:Hp.
    + exists (HourFromTime (t + LocalTZA t)). split; [apply HourFromTime_range |].
      intros h'. rewrite filter_In, Hp. simpl. rewrite Z.eqb_eq. split.
      * intros [_ ->]. reflexivity.
      * intros ->. auto.
    + intros selected Hsel. apply filter_In in Hsel as [_ Hsel].
      rewrite Hp in Hsel. discriminate.
  - clear Hin. unfold activitiesInHour.
    induction (activityDataRaw s) as [|x l IH]; [reflexivity |].
    simpl. destruct (getHours _ _); simpl; exact IH.
Qed.

End EffectExtras.

(** ** Search *)

Lemma starts_with_spec (p s : string) :
  starts_with p s = true <-> exists b, s = (p ++ b)%string.
Proof.
  revert s. induction p as [|c p IH]; intros s; simpl.
  - split; [intros _; exists s; reflexivity | reflexivity].
  - destruct s as [|d r].
    + split; [discriminate | intros [b Hb]; discriminate].
    + rewrite andb_true_iff, Ascii.eqb_eq, IH. split.
      * intros [-> [b ->]]. exists b. reflexivity.
      * intros [b [= -> ->]]. split; [reflexivity | exists b; reflexivity].
Qed.

Lemma includes_unfold (s t : string) :
  includes s t
  = starts_with t s
    || match s with String _ r => includes r t | EmptyString => false end.
Proof. destruct s; reflexivity. Qed.

Lemma includes_spec (s t : string) :
  includes s t = true <-> exists a b, s = (a ++ t ++ b)%string.
Proof.
  induction s as [|c r IH]; rewrite includes_unfold, orb_true_iff, starts_with_spec.
  - split.
    + intros [[b Hb] | H]; [| discriminate]. exists EmptyString, b. exact Hb.
    + intros (a & b & H). left. destruct a; [exists b; exact H | discriminate].
  - rewrite IH. split.
    + intros [[b Hb] | (a & b & ->)].
      * exists EmptyString, b. exact Hb.
      * exists (String c a), b. reflexivity.
    + intros (a & b & H). destruct a as [|c' a].
      * left. exists b. exact H.
      * right. injection H as -> ->. exists a, b. reflexivity.
Qed.

Lemma string_app_assoc (a b c : string) : ((a ++ b) ++ c = a ++ b ++ c)%string.
Proof.
  induction a as [|x a IH]; [reflexivity |].
  exact (f_equal (String x) IH).
Qed.

Lemma includes_trans (s t u : string) :
  includes s t = true -> includes t u = true -> includes s u = true.
Proof.
  rewrite !includes_spec. intros (a & b & ->) (a' & b' & ->).
  exists (a ++ a')%string, (b' ++ b)%string.
  rewrite !string_app_assoc. reflexivity.
Qed.

Lemma includes_empty (s : string) : includes s "" = true.
Proof. destruct s; reflexivity. Qed.

Section SearchExtras.

Variable toLowerCase : string -> string.

(** X20. With nothing typed in the search box the locations tab lists every
    location, and the guards tab every guard when each guard has a name;
    when a guard has none, from a row that lacked the column, the guards
    tab raises a [TypeError]. *)
Theorem empty_search_shows_all (s : State) :
  toLowerCase "" = "" ->
  visibleGuards toLowerCase "" s
  = (if forallb named (guardStats s) then Normal (guardStats s) else Throw TypeError)
  /\ visibleLocations toLowerCase "" s = locationStats s.
Proof.
  intros Hlow. unfold visibleGuards, visibleLocations. split.
  - assert (Hg : forall g, guardMatches toLowerCase "" g
                           = if named g then Normal true else Throw TypeError).
    { intros g. unfold guardMatches, fieldMatches, named.
      destruct (GuardStats.name g); [| reflexivity].
      cbn [mbind completion_bind]. rewrite Hlow, includes_empty. reflexivity. }
    induction (guardStats s) as [|g l IH]; [reflexivity |].
    cbn [filter_c forallb]. rewrite Hg, IH.
    destruct (named g), (forallb named l); reflexivity.
  - apply filter_all. intros x _. unfold locationMatches.
    rewrite Hlow, includes_empty. reflexivity.
Qed.

Lemma guardMatches_narrows (short long : string) (g : GuardStats.t) (b : bool) :
  includes (toLowerCase long) (toLowerCase short) = true ->
  guardMatches toLowerCase long g = Normal b ->
  exists b', guardMatches toLowerCase short g = Normal b' /\ (b = true -> b' = true).
Proof.
  intros Hinc. unfold guardMatches, fieldMatches.
  destruct (GuardStats.name g) as [n |]; [| discriminate]. cbn [mbind completion_bind].
  destruct (includes (toLowerCase n) (toLowerCase long)) eqn:Hn.
  - intros _. rewrite (includes_trans _ _ _ Hn Hinc). eauto.
  - destruct (GuardStats.post g) as [p |]; [| discriminate]. intros [= <-].
    destruct (includes (toLowerCase n) (toLowerCase short)); [eauto |].
    eexists. split; [reflexivity |]. intros Hp. exact (includes_trans _ _ _ Hp Hinc).
Qed.

(** X21. A search term that contains another one, case folded, lists a part of
    what the other lists, in the same order: on the locations tab always,
    and on the guards tab whenever the search for the longer term does not
    raise, in which case the search for the shorter one does not either. *)
Theorem longer_search_narrows (short long : string) (s : State) :
  includes (toLowerCase long) (toLowerCase short) = true ->
  (forall shown, visibleGuards toLowerCase long s = Normal shown ->
     exists more, visibleGuards toLowerCase short s = Normal more /\ sublist shown more)
  /\ sublist (visibleLocations toLowerCase long s) (visibleLocations toLowerCase short s).
Proof.
  intros Hinc. unfold visibleGuards, visibleLocations. split.
  - induction (guardStats s) as [|g l IH]; intros shown.
    + intros [= <-]. exists []. split; [reflexivity | constructor].
    + cbn [filter_c].
      destruct (guardMatches toLowerCase long g) as [b |] eqn:Hg; [| discriminate].
      cbn [mbind completion_bind].
      destruct (filter_c (guardMatches toLowerCase long) l) as [rest |]; [| discriminate].
      cbn [mbind completion_bind]. intros [= <-].
      destruct (guardMatches_narrows short long g b Hinc Hg) as (b' & -> & Hb).
      destruct (IH rest eq_refl) as (more & -> & Hsub). cbn [mbind completion_bind].
      eexists. split; [reflexivity |].
      destruct b; [rewrite (Hb eq_refl); apply sublist_skip, Hsub |].
      destruct b'; [apply sublist_cons |]; exact Hsub.
  - apply filter_implies_sublist. intros x _. unfold locationMatches.
    intros H. exact (includes_trans _ _ _ H Hinc).
Qed.

End SearchExtras.

(** ** The date picker and the first load *)

Section PickerExtras.

Variable Date_parse : string -> option Z.
Variable LocalTZA : Z -> Z.


(** X24. A load that fails, in either dataset, stores no rows at all: the
    dashboard state is the one before, loading has ended, and the error
    screen shows the message unless the message is empty. *)
Theorem failed_load_stores_nothing (activity : Outcome ActivityRecord.t)
    (attendance : Outcome AttendanceRecord.t) (sh : Shell.t) :
  (forall rows, activity <> Parsed rows) \/ (forall rows, attendance <> Parsed rows) ->
  Shell.dashboard (fetchData activity attendance sh) = Shell.dashboard sh
  /\ Shell.loading (fetchData activity attendance sh) = false
  /\ exists message,
       Shell.error (fetchData activity attendance sh) = Some message
       /\ screen (fetchData activity attendance sh)
          = if truthy message then ErrorScreen message else DashboardScreen.
Proof.
  intros H. unfold fetchData, tryFetch, screen.
  destruct activity as [e | | ra]; [destruct e | |];
    try (cbn; repeat split; eexists; split; reflexivity).
  destruct attendance as [e | | rb]; [destruct e | |];
    try (cbn; repeat split; eexists; split; reflexivity).
  destruct H as [H | H]; [destruct (H ra eq_refl) | destruct (H rb eq_refl)].
Qed.



End PickerExtras.

(** ** The guard cards against the headline figures *)

Section CardFacts.

Variable Date_parse : string -> option Z.
Variable LocalTZA : Z -> Z.


End CardFacts.

(** ** The further statements at the example host *)







Lemma no_timestamp_witness :
  (forall a, In a ex_untimed -> ActivityRecord.Date_Time a = "")
  /\ exists s',
       processActivityData iso_Date_parse utc_LocalTZA ex_untimed initialState = Normal s'
       /\ activityData s' = initialHourlyData
       /\ guardStats s' = []
       /\ Metrics.totalGuards (metrics s') = 0
       /\ Metrics.locationErrors (metrics s') = 0
       /\ Metrics.avgLocationAccuracy (metrics s') = of_Z 0.
Proof.
  assert (H1 : forall a, In a ex_untimed -> ActivityRecord.Date_Time a = "")
    by (intros a [<- | [<- | []]]; reflexivity).
  refine (conj H1 _).
  exact (no_timestamp_no_output iso_Date_parse utc_LocalTZA ex_untimed initialState H1).
Defined.



Lemma unbounded_filter_witness :
  startDate ex_dashboard = None
  /\ endDate ex_dashboard = None
  /\ filteredActivityData iso_Date_parse ex_dashboard
     = timestamped (activityDataRaw ex_dashboard)
  /\ filteredAttendanceData iso_Date_parse ex_dashboard
     = List.filter (fun r => truthy (AttendanceRecord.Login_Date r))
         (attendanceDataRaw ex_dashboard).
Proof.
  refine (conj eq_refl (conj eq_refl _)).
  exact (unbounded_filter iso_Date_parse ex_dashboard eq_refl eq_refl).
Defined.

Lemma bounds_are_inclusive_witness :
  In (ActivityRecord.mk "101" (Some "Asha Rao") "2024-01-15T09:05:00Z" "Scan" (Some "Gate-1") "12m"
        "On Time") (activityDataRaw ex_ranged)
  /\ "2024-01-15T09:05:00Z" <> ""
  /\ iso_Date_parse "2024-01-15T09:05:00Z" = Some 1705309500000
  /\ startDate ex_ranged = Some (Some 1705276800000)
  /\ endDate ex_ranged = Some (Some 1705363200000)
  /\ (In (ActivityRecord.mk "101" (Some "Asha Rao") "2024-01-15T09:05:00Z" "Scan" (Some "Gate-1") "12m"
            "On Time") (filteredActivityData iso_Date_parse ex_ranged)
      <-> 1705276800000 <= 1705309500000 <= 1705363200000).
Proof.
  assert (H1 : In (ActivityRecord.mk "101" (Some "Asha Rao") "2024-01-15T09:05:00Z" "Scan" (Some "Gate-1")
                     "12m" "On Time") (activityDataRaw ex_ranged))
    by (left; reflexivity).
  assert (H2 : "2024-01-15T09:05:00Z" <> "") by discriminate.
  assert (H3 : iso_Date_parse "2024-01-15T09:05:00Z" = Some 1705309500000) by reflexivity.
  refine (conj H1 (conj H2 (conj H3 (conj eq_refl (conj eq_refl _))))).
  exact (bounds_are_inclusive iso_Date_parse utc_LocalTZA ex_ranged
           (ActivityRecord.mk "101" (Some "Asha Rao") "2024-01-15T09:05:00Z" "Scan" (Some "Gate-1") "12m"
              "On Time")
           1705309500000 1705276800000 1705363200000 H1 H2 H3 eq_refl eq_refl).
Defined.

Lemma widening_keeps_records_witness :
  activityDataRaw ex_ranged = activityDataRaw (setStartDate (Some (Some 1705309500000)) ex_ranged)
  /\ attendanceDataRaw ex_ranged
     = attendanceDataRaw (setStartDate (Some (Some 1705309500000)) ex_ranged)
  /\ startDate (setStartDate (Some (Some 1705309500000)) ex_ranged)
     = Some (Some 1705309500000)
  /\ endDate (setStartDate (Some (Some 1705309500000)) ex_ranged)
     = Some (Some 1705363200000)
  /\ startDate ex_ranged = Some (Some 1705276800000)
  /\ endDate ex_ranged = Some (Some 1705363200000)
  /\ 1705276800000 <= 1705309500000
  /\ 1705363200000 <= 1705363200000
  /\ sublist (filteredActivityData iso_Date_parse
                (setStartDate (Some (Some 1705309500000)) ex_ranged))
       (filteredActivityData iso_Date_parse ex_ranged)
  /\ sublist (filteredAttendanceData iso_Date_parse
                (setStartDate (Some (Some 1705309500000)) ex_ranged))
       (filteredAttendanceData iso_Date_parse ex_ranged).
Proof.
  assert (H7 : 1705276800000 <= 1705309500000) by lia.
  assert (H8 : 1705363200000 <= 1705363200000) by lia.
  refine (conj eq_refl (conj eq_refl (conj eq_refl (conj eq_refl (conj eq_refl
            (conj eq_refl (conj H7 (conj H8 _)))))))).
  exact (widening_keeps_records iso_Date_parse
           (setStartDate (Some (Some 1705309500000)) ex_ranged) ex_ranged
           1705309500000 1705363200000 1705276800000 1705363200000
           eq_refl eq_refl eq_refl eq_refl eq_refl eq_refl H7 H8).
Defined.


Lemma hour_table_and_bucket_witness :
  activityDataRaw ex_dashboard <> []
  /\ attendanceDataRaw ex_dashboard <> []
  /\ iso_Date_parse "" = None
  /\ rangeEffect iso_Date_parse utc_LocalTZA ex_dashboard = Normal ex_shown
  /\ forall (h : nat) (b : ActivityData.t),
       activityData ex_shown !! h = Some b ->
       ActivityData.count b
       <= Z.of_nat (length (activitiesInHour iso_Date_parse utc_LocalTZA
                              (Some (Z.of_nat h)) ex_shown))
       /\ (startDate ex_dashboard = None -> endDate ex_dashboard = None ->
           ActivityData.count b
           = Z.of_nat (length (activitiesInHour iso_Date_parse utc_LocalTZA
                                 (Some (Z.of_nat h)) ex_shown))).
Proof.
  assert (H1 : activityDataRaw ex_dashboard <> []) by discriminate.
  assert (H2 : attendanceDataRaw ex_dashboard <> []) by discriminate.
  assert (H3 : iso_Date_parse "" = None) by reflexivity.
  assert (H4 : rangeEffect iso_Date_parse utc_LocalTZA ex_dashboard = Normal ex_shown)
    by (vm_compute; reflexivity).
  refine (conj H1 (conj H2 (conj H3 (conj H4 _)))).
  exact (hour_table_and_bucket iso_Date_parse utc_LocalTZA ex_dashboard ex_shown
           H1 H2 H3 H4).
Defined.

Lemma hour_tables_partition_witness :
  In (ActivityRecord.mk "102" (Some "Ben Ito") "2024-01-15T22:40:00Z" "Scan" (Some "Depot") "80m" "Late")
     (activityDataRaw ex_dashboard)
  /\ (exists h, 0 <= h < 24
        /\ forall h',
             In (ActivityRecord.mk "102" (Some "Ben Ito") "2024-01-15T22:40:00Z" "Scan" (Some "Depot")
                   "80m" "Late")
                (activitiesInHour iso_Date_parse utc_LocalTZA (Some h') ex_dashboard)
             <-> h' = h)
  /\ activitiesInHour iso_Date_parse utc_LocalTZA None ex_dashboard = [].
Proof.
  assert (H1 : In (ActivityRecord.mk "102" (Some "Ben Ito") "2024-01-15T22:40:00Z" "Scan" (Some "Depot")
                     "80m" "Late") (activityDataRaw ex_dashboard))
    by (right; left; reflexivity).
  refine (conj H1 _).
  exact (hour_tables_partition iso_Date_parse utc_LocalTZA ex_dashboard
           (ActivityRecord.mk "102" (Some "Ben Ito") "2024-01-15T22:40:00Z" "Scan" (Some "Depot") "80m"
              "Late") H1).
Defined.

Lemma empty_search_witness :
  ascii_toLowerCase "" = ""
  /\ visibleGuards ascii_toLowerCase "" ex_cutShort
     = (if forallb named (guardStats ex_cutShort)
        then Normal (guardStats ex_cutShort) else Throw TypeError)
  /\ visibleLocations ascii_toLowerCase "" ex_cutShort = locationStats ex_cutShort.
Proof.
  refine (conj eq_refl _).
  exact (empty_search_shows_all ascii_toLowerCase ex_cutShort eq_refl).
Defined.

(** The guards tab on a list whose second guard has neither name nor post:
    the search raises, with the empty term and with a term that the first
    guard matches as well. *)
Example search_raises :
  visibleGuards ascii_toLowerCase "" ex_cutShort = Throw TypeError
  /\ visibleGuards ascii_toLowerCase "asha" ex_cutShort = Throw TypeError
  /\ completion_map (fmap GuardStats.id) (visibleGuards ascii_toLowerCase "DEPOT" ex_shown)
     = Normal ["102"].
Proof. repeat split. Qed.

Lemma longer_search_witness :
  includes (ascii_toLowerCase "Gate-1") (ascii_toLowerCase "GATE") = true
  /\ (forall shown, visibleGuards ascii_toLowerCase "Gate-1" ex_shown = Normal shown ->
        exists more, visibleGuards ascii_toLowerCase "GATE" ex_shown = Normal more
                     /\ sublist shown more)
  /\ sublist (visibleLocations ascii_toLowerCase "Gate-1" ex_shown)
       (visibleLocations ascii_toLowerCase "GATE" ex_shown).
Proof.
  refine (conj eq_refl _).
  exact (longer_search_narrows ascii_toLowerCase "GATE" "Gate-1" ex_shown eq_refl).
Defined.


Lemma failed_load_witness :
  ((forall rows, Parsed ex_guards <> Parsed rows)
   \/ (forall rows, @NotOk AttendanceRecord.t <> Parsed rows))
  /\ Shell.dashboard (fetchData (Parsed ex_guards) NotOk initialShell)
     = Shell.dashboard initialShell
  /\ Shell.loading (fetchData (Parsed ex_guards) NotOk initialShell) = false
  /\ exists message,
       Shell.error (fetchData (Parsed ex_guards) NotOk initialShell) = Some message
       /\ screen (fetchData (Parsed ex_guards) NotOk initialShell)
          = if truthy message then ErrorScreen message else DashboardScreen.
Proof.
  assert (H1 : (forall rows, Parsed ex_guards <> Parsed rows)
               \/ (forall rows, @NotOk AttendanceRecord.t <> Parsed rows))
    by (right; intros rows; discriminate).
  refine (conj H1 _).
  exact (failed_load_stores_nothing (Parsed ex_guards) NotOk initialShell H1).
Defined.


